(** * go-todo: the request handlers of [main.go], embedded and verified

    The program is one Go file: four HTTP handlers ([getAllTodo],
    [createTodo], [deleteTodo], [updateTodo]) over one MongoDB collection
    reached through the [mgo] driver.  The handlers are embedded as pure
    functions over an explicit [World] (the collection, the log of the
    calls made to it and the process-wide object id counter); what the
    handler hands to [rnd.JSON] is returned next to the new world.

    The library functions the handlers call ([strings.TrimSpace],
    [hex.EncodeToString], [bson.NewObjectId], [bson.IsObjectIdHex],
    [time.Time.Format], [mgo.Collection.Remove], ...) are embedded from
    the libraries' own sources, one module per Go package. *)

From Stdlib Require Import ZArith NArith List String Ascii Bool Lia.
From Stdlib Require Import Permutation.
Import ListNotations.

Open Scope string_scope.

(** A Go [string] is a sequence of bytes: [String.string], whose
    characters are the 256 values of [ascii]. *)

Definition byteN (c : ascii) : N := N_of_ascii c.

(** [byte(x)] on an integer: the low eight bits. *)
Definition byte (x : Z) : ascii := ascii_of_N (Z.to_N (Z.land x 255)).

Fixpoint rev_string (acc s : string) : string :=
  match s with
  | EmptyString => acc
  | String c s' => rev_string (String c acc) s'
  end.

Definition reverse (s : string) : string := rev_string "" s.

Fixpoint drop (n : nat) (s : string) : string :=
  match n, s with
  | O, _ => s
  | S n', String _ s' => drop n' s'
  | S _, EmptyString => EmptyString
  end.

(* ------------------------------------------------------------------ *)
(** ** Package [strings] *)

Module strings.

(** [asciiSpace]: the table of [strings.TrimSpace], set at tab, new
    line, vertical tab, form feed, carriage return and space. *)
Definition asciiSpace (c : ascii) : bool :=
  match byteN c with
  | 9 | 10 | 11 | 12 | 13 | 32 => true
  | _ => false
  end%N.

(** [unicode.IsSpace] beyond ASCII: the White_Space runes U+0085 and
    U+00A0, whose UTF-8 encodings have two bytes, and U+1680,
    U+2000..U+200A, U+2028, U+2029, U+202F, U+205F and U+3000, whose
    encodings have three. *)
Definition isSpace2 (a b : ascii) : bool :=
  ((byteN a =? 194) && ((byteN b =? 133) || (byteN b =? 160)))%N.

Definition isSpace3 (a b c : ascii) : bool :=
  (((byteN a =? 225) && (byteN b =? 154) && (byteN c =? 128))
   || ((byteN a =? 226) && (byteN b =? 128)
       && (((128 <=? byteN c) && (byteN c <=? 138))
           || (byteN c =? 168) || (byteN c =? 169) || (byteN c =? 175)))
   || ((byteN a =? 226) && (byteN b =? 129) && (byteN c =? 159))
   || ((byteN a =? 227) && (byteN b =? 128) && (byteN c =? 128)))%N.

(** The width in bytes of the white space rune that starts the string
    ([utf8.DecodeRuneInString], then [unicode.IsSpace]); 0 when the
    string does not start with one. *)
Definition spaceWidth (s : string) : nat :=
  match s with
  | EmptyString => 0
  | String a r =>
      if asciiSpace a then 1
      else match r with
           | EmptyString => 0
           | String b r' =>
               if isSpace2 a b then 2
               else match r' with
                    | EmptyString => 0
                    | String c _ => if isSpace3 a b c then 3 else 0
                    end
           end
  end.

(** The same for the rune that ends the string, the string being given
    last byte first ([utf8.DecodeLastRuneInString]). *)
Definition spaceWidthLast (rs : string) : nat :=
  match rs with
  | EmptyString => 0
  | String c r =>
      if asciiSpace c then 1
      else match r with
           | EmptyString => 0
           | String b r' =>
               if isSpace2 b c then 2
               else match r' with
                    | EmptyString => 0
                    | String a _ => if isSpace3 a b c then 3 else 0
                    end
           end
  end.

(** [TrimLeftFunc(s, unicode.IsSpace)]: the loop that steps over
    leading white space runes; [fuel] bounds its iterations. *)
Fixpoint trimLeftSpace (fuel : nat) (s : string) : string :=
  match fuel with
  | O => s
  | S fuel' =>
    match spaceWidth s with
    | O => s
    | w => trimLeftSpace fuel' (drop w s)
    end
  end.

Fixpoint trimLastSpace (fuel : nat) (rs : string) : string :=
  match fuel with
  | O => rs
  | S fuel' =>
    match spaceWidthLast rs with
    | O => rs
    | w => trimLastSpace fuel' (drop w rs)
    end
  end.

(** [strings.TrimSpace]: all leading and trailing white space removed.
    (The source first runs an ASCII-only loop from each end and falls
    back to the rune-aware loops at the first non-ASCII byte; both give
    this result.) *)
Definition TrimSpace (s : string) : string :=
  let l := trimLeftSpace (String.length s) s in
  reverse (trimLastSpace (String.length l) (reverse l)).

End strings.

(* ------------------------------------------------------------------ *)
(** ** Package [encoding/hex] *)

Module hex.

Definition hextable : string := "0123456789abcdef".

Definition tableAt (n : N) : ascii :=
  match String.get (N.to_nat n) hextable with
  | Some c => c
  | None => "0"%char
  end.

(** [EncodeToString]: [dst[2i] = hextable[v>>4]],
    [dst[2i+1] = hextable[v&0x0f]]. *)
Fixpoint EncodeToString (src : string) : string :=
  match src with
  | EmptyString => EmptyString
  | String v src' =>
      String (tableAt (N.shiftr (byteN v) 4))
        (String (tableAt (N.land (byteN v) 15)) (EncodeToString src'))
  end.

(** [reverseHexTable]: the value of a hexadecimal digit of either
    case, [None] where the table holds 0xff. *)
Definition fromHexChar (c : ascii) : option N :=
  let n := byteN c in
  if ((48 <=? n) && (n <=? 57))%N then Some (n - 48)%N
  else if ((97 <=? n) && (n <=? 102))%N then Some (n - 97 + 10)%N
  else if ((65 <=? n) && (n <=? 70))%N then Some (n - 65 + 10)%N
  else None.

(** [DecodeString]: pairs of digits to bytes; an invalid byte or an
    odd length is an error ([None]). *)
Fixpoint DecodeString (s : string) : option string :=
  match s with
  | EmptyString => Some EmptyString
  | String _ EmptyString => None
  | String p (String q s') =>
      match fromHexChar p, fromHexChar q with
      | Some a, Some b =>
          match DecodeString s' with
          | Some d => Some (String (ascii_of_N (N.lor (N.shiftl a 4) b)) d)
          | None => None
          end
      | _, _ => None
      end
  end.

End hex.

(* ------------------------------------------------------------------ *)
(** ** Package [bson]: object ids *)

Module bson.

(** [type ObjectId string]: the raw bytes of the id. *)
Definition ObjectId := string.

(** What [NewObjectId] reads from the process: the clock (seconds since
    the epoch), the first three bytes of the md5 of the host name, the
    process id. *)
Record IdSource := {
  unixSeconds : Z;
  machineId : ascii * ascii * ascii;
  processId : Z
}.

(** [NewObjectId]: [atomic.AddUint32(&objectIdCounter, 1)] returns the
    incremented counter, which is also the counter's new value. *)
Definition NewObjectId (src : IdSource) (objectIdCounter : Z)
  : ObjectId * Z :=
  let ts := ((unixSeconds src) mod 2 ^ 32)%Z in
  let '(m0, m1, m2) := machineId src in
  let i := ((objectIdCounter + 1) mod 2 ^ 32)%Z in
  (String (byte (Z.shiftr ts 24)) (String (byte (Z.shiftr ts 16))
    (String (byte (Z.shiftr ts 8)) (String (byte ts)
    (String m0 (String m1 (String m2
    (String (byte (Z.shiftr (processId src) 8)) (String (byte (processId src))
    (String (byte (Z.shiftr i 16)) (String (byte (Z.shiftr i 8))
    (String (byte i) EmptyString))))))))))),
   i).

(** [id.Hex()] is [hex.EncodeToString([]byte(id))]; [MarshalJSON]
    prints the same digits (["%x"]) between quotes. *)
Definition Hex (id : ObjectId) : string := hex.EncodeToString id.

(** [IsObjectIdHex]: 24 bytes that decode as hexadecimal. *)
Definition IsObjectIdHex (s : string) : bool :=
  if negb (Nat.eqb (String.length s) 24) then false
  else match hex.DecodeString s with
       | Some _ => true
       | None => false
       end.

(** [ObjectIdHex]: the decoded id; it panics ([None]) when the string
    does not decode or does not decode to 12 bytes. *)
Definition ObjectIdHex (s : string) : option ObjectId :=
  match hex.DecodeString s with
  | Some d => if Nat.eqb (String.length d) 12 then Some d else None
  | None => None
  end.

End bson.

(* ------------------------------------------------------------------ *)
(** ** Package [time]: formatting a [Time] *)

Module time.

(** A [time.Time] as [Format] sees it: the calendar date and clock
    reading in the time's location ([t.Date()], [t.Clock()],
    [t.Nanosecond()]) and the offset of its zone ([t.Zone()], seconds
    east of UTC). *)
Record Time := {
  Year : Z;
  Month : Z;
  Day : Z;
  Hour : Z;
  Minute : Z;
  Second : Z;
  Nanosecond : Z;
  ZoneOffset : Z
}.

(** The ranges of the fields of a time read from the clock. *)
Definition valid (t : Time) : bool :=
  ((1 <=? Month t) && (Month t <=? 12) &&
   (1 <=? Day t) && (Day t <=? 31) &&
   (0 <=? Hour t) && (Hour t <=? 23) &&
   (0 <=? Minute t) && (Minute t <=? 59) &&
   (0 <=? Second t) && (Second t <=? 59) &&
   (0 <=? Nanosecond t) && (Nanosecond t <? 1000000000))%Z.

Definition digit (d : Z) : ascii := byte (48 + d).

(** The digit loop of [appendInt]:
    [for u >= 10 { i--; q := u / 10; buf[i] = byte('0' + u - q*10); u = q }]
    and then [buf[i] = byte('0' + u)].  The buffer has 20 bytes, which
    is the fuel. *)
Fixpoint utoa (fuel : nat) (u : Z) (buf : string) : string :=
  match fuel with
  | O => buf
  | S fuel' =>
      if (10 <=? u)%Z
      then let q := (u / 10)%Z in
           utoa fuel' q (String (digit (u - q * 10)) buf)
      else String (digit u) buf
  end.

Fixpoint zeros (n : nat) : string :=
  match n with
  | O => EmptyString
  | S n' => String "0" (zeros n')
  end.

(** [appendInt(b, x, width)]: a sign for a negative [x], then the
    decimal form of [uint(x)] (of [uint(-x)] when negative), padded
    with zeros to [width]. *)
Definition appendInt (b : string) (x : Z) (width : nat) : string :=
  let b := if (x <? 0)%Z then b ++ "-" else b in
  let u := if (x <? 0)%Z then ((- x) mod 2 ^ 64)%Z else x in
  let ds := utoa 20 u "" in
  b ++ zeros (width - String.length ds) ++ ds.

(** The layout elements ([std...] constants of format.go) that the two
    layouts of this program hold. *)
Inductive std :=
| stdLongYear              (* "2006" *)
| stdZeroMonth             (* "01" *)
| stdZeroDay               (* "02" *)
| stdHour                  (* "15" *)
| stdZeroMinute            (* "04" *)
| stdZeroSecond            (* "05" *)
| stdFracSecond9 (n : nat) (* ".999", n nines *)
| stdISO8601ColonTZ.       (* "Z07:00" *)

Inductive chunk :=
| Lit (c : ascii)
| Std (s : std).

Fixpoint countRun (c : ascii) (s : string) : nat :=
  match s with
  | String d s' => if Ascii.eqb c d then S (countRun c s') else O
  | EmptyString => O
  end.

Definition isDigitAt (s : string) : bool :=
  match s with
  | String c _ => ((48 <=? byteN c) && (byteN c <=? 57))%N
  | EmptyString => false
  end.

(** [nextStdChunk], run to the end of the layout.  It recognises the
    elements listed in [std]; the other elements of Go's layouts (month
    and day names, 12-hour clock, two-digit year, zone names and the
    other zone forms, ".000") occur in neither layout used here and are
    not modelled: every other byte is literal text. *)
Fixpoint chunks (fuel : nat) (layout : string) : list chunk :=
  match fuel with
  | O => []
  | S fuel' =>
    match layout with
    | EmptyString => []
    | String c rest =>
      if String.prefix "2006" layout
      then Std stdLongYear :: chunks fuel' (drop 4 layout)
      else if String.prefix "01" layout
      then Std stdZeroMonth :: chunks fuel' (drop 2 layout)
      else if String.prefix "02" layout
      then Std stdZeroDay :: chunks fuel' (drop 2 layout)
      else if String.prefix "15" layout
      then Std stdHour :: chunks fuel' (drop 2 layout)
      else if String.prefix "04" layout
      then Std stdZeroMinute :: chunks fuel' (drop 2 layout)
      else if String.prefix "05" layout
      then Std stdZeroSecond :: chunks fuel' (drop 2 layout)
      else if String.prefix "Z07:00" layout
              && negb (String.prefix "Z07:00:00" layout)
      then Std stdISO8601ColonTZ :: chunks fuel' (drop 6 layout)
      else if Ascii.eqb c "."
              && negb (Nat.eqb (countRun "9" rest) 0)
              && negb (isDigitAt (drop (countRun "9" rest) rest))
      then Std (stdFracSecond9 (countRun "9" rest))
             :: chunks fuel' (drop (countRun "9" rest) rest)
      else Lit c :: chunks fuel' rest
    end
  end.

Fixpoint trimRightZeros (rs : string) : string :=
  match rs with
  | String "0" rs' => trimRightZeros rs'
  | _ => rs
  end.

(** [appendNano] for a [stdFracSecond9] element of [n] digits: nothing
    for a zero nanosecond; otherwise the separator and nine digits, cut
    to [n], trailing zeros removed, and the separator removed when
    nothing follows it. *)
Definition appendNano (b : string) (nanosec : Z) (n : nat) : string :=
  if Nat.eqb n 0 || (nanosec =? 0)%Z then b
  else
    let full := appendInt "." nanosec 9 in
    let cut := reverse (drop (9 - n) (reverse full)) in
    let r := trimRightZeros (reverse cut) in
    let r := match r with String "." r' => r' | _ => r end in
    b ++ reverse r.

(** The zone element ["Z07:00"]: [Z] for UTC, else sign, hours, colon,
    minutes.  Go's [/] and [%] truncate towards zero. *)
Definition appendZone (b : string) (offset : Z) : string :=
  if (offset =? 0)%Z then b ++ "Z"
  else
    let zone := Z.quot offset 60 in
    let b := if (zone <? 0)%Z then b ++ "-" else b ++ "+" in
    let zone := if (zone <? 0)%Z then (- zone)%Z else zone in
    let b := appendInt b (Z.quot zone 60) 2 in
    appendInt (b ++ ":") (Z.rem zone 60) 2.

Definition appendChunk (t : Time) (b : string) (c : chunk) : string :=
  match c with
  | Lit c => b ++ String c ""
  | Std stdLongYear => appendInt b (Year t) 4
  | Std stdZeroMonth => appendInt b (Month t) 2
  | Std stdZeroDay => appendInt b (Day t) 2
  | Std stdHour => appendInt b (Hour t) 2
  | Std stdZeroMinute => appendInt b (Minute t) 2
  | Std stdZeroSecond => appendInt b (Second t) 2
  | Std (stdFracSecond9 n) => appendNano b (Nanosecond t) n
  | Std stdISO8601ColonTZ => appendZone b (ZoneOffset t)
  end.

(** [t.Format(layout)]. *)
Definition Format (t : Time) (layout : string) : string :=
  fold_left (appendChunk t) (chunks (String.length layout) layout) "".

Definition RFC3339Nano : string := "2006-01-02T15:04:05.999999999Z07:00".

(** [t.MarshalJSON()]: an error for a year outside [0,9999], else the
    time in the [RFC3339Nano] layout (here without the quotes: the
    content of the JSON string). *)
Definition MarshalJSON (t : Time) : option string :=
  if ((Year t <? 0) || (10000 <=? Year t))%Z then None
  else Some (Format t RFC3339Nano).

End time.

(* ------------------------------------------------------------------ *)
(** ** Go values used by the handlers *)

(** A Go slice is [nil] or holds elements; the two differ once encoded
    as JSON ([null] against [[]]). *)
Inductive slice (A : Type) :=
| nilSlice
| mkSlice (elems : list A).
Arguments nilSlice {A}.
Arguments mkSlice {A} elems.

Definition append {A : Type} (s : slice A) (x : A) : slice A :=
  match s with
  | nilSlice => mkSlice [x]
  | mkSlice l => mkSlice (l ++ [x])
  end.

Inductive error :=
| ErrNotFound                (* mgo.ErrNotFound *)
| ErrDuplicateKey            (* the server's duplicate key error on _id *)
| ErrStore (msg : string)    (* any other failure the driver reports *)
| ErrDecode (msg : string).  (* what the JSON decoder returned *)

(** The storage form of a task, [todoModel]. *)
Module Model.
Record todoModel := {
  ID : bson.ObjectId;
  Title : string;
  Completed : bool;
  CreatedAt : time.Time
}.
End Model.

(** The wire form of a task, [todo]. *)
Module Wire.
Record todo := {
  ID : string;
  Title : string;
  Completed : bool;
  CreatedAt : string
}.
End Wire.

(* ------------------------------------------------------------------ *)
(** ** Package [encoding/json]: what the client receives *)

Module json.

(** A JSON text as a tree.  Strings are kept as the Go strings they
    encode; the escaping of the last encoding step is not modelled. *)
#[local] Unset Elimination Schemes.
Inductive Value :=
| Null
| Bool (b : bool)
| Str (s : string)
| Array (l : list Value)
| Object (fields : list (string * Value)).
#[local] Set Elimination Schemes.

Fixpoint field (name : string) (fields : list (string * Value))
  : option Value :=
  match fields with
  | [] => None
  | (k, v) :: rest => if String.eqb k name then Some v else field name rest
  end.

(** [todo] is encoded under its [json:"..."] tags. *)
Definition MarshalTodo (t : Wire.todo) : Value :=
  Object [("id", Str (Wire.ID t));
          ("title", Str (Wire.Title t));
          ("completed", Bool (Wire.Completed t));
          ("createdAt", Str (Wire.CreatedAt t))].

(** [todoModel] has no json tags (its [bson] tags are not read by
    encoding/json), so its fields go out under their Go names; the id
    and the time are encoded by their own [MarshalJSON] methods, and
    the error of the time's method is the error of the whole. *)
Definition MarshalTodoModel (m : Model.todoModel) : option Value :=
  match time.MarshalJSON (Model.CreatedAt m) with
  | None => None
  | Some ts =>
      Some (Object [("ID", Str (bson.Hex (Model.ID m)));
                    ("Title", Str (Model.Title m));
                    ("Completed", Bool (Model.Completed m));
                    ("CreatedAt", Str ts)])
  end.

(** A nil slice is encoded as [null], any other as an array. *)
Definition MarshalTodoList (l : slice Wire.todo) : Value :=
  match l with
  | nilSlice => Null
  | mkSlice elems => Array (map MarshalTodo elems)
  end.

End json.

(* ------------------------------------------------------------------ *)
(** ** The world of a handler *)

(** The calls a handler makes on [db.C(collectionName)]. *)
Inductive StoreCall :=
| CallFindAll
| CallInsert (doc : Model.todoModel)
| CallRemoveId (id : bson.ObjectId)
| CallUpdate (id : bson.ObjectId) (title : string) (completed : bool).

(** The state that outlives a request: the documents of the collection in
    the order the server returns them, the calls made on the collection
    so far, and [objectIdCounter] of package bson. *)
Record World := {
  collection : list Model.todoModel;
  storeCalls : list StoreCall;
  objectIdCounter : Z
}.

(** What one run of a handler reads from outside the program: whether the
    round trip to the server fails (and with what error) before the
    server applies the operation, what [bson.NewObjectId] reads, and the
    reading of [time.Now()].  A failure after the server has applied the
    operation (the reply is lost) is outside this model; the statements
    on failed calls below say what the handler answers, not what such a
    call has left in the store. *)
Record Env := {
  ioFault : option error;
  idSource : bson.IdSource;
  now : time.Time
}.

(** What [json.NewDecoder(r.Body).Decode(&t)] does on the body of the
    request with a zero [todo]: the error it returns, or the [todo] it
    leaves in [t]. *)
Inductive Decoded :=
| DecodeError (err : error)
| DecodeOK (t : Wire.todo).

Record Request := {
  URLParam_id : string;   (* chi.URLParam(r, "id") *)
  Body : Decoded
}.

(* ------------------------------------------------------------------ *)
(** ** Package [mgo]: the collection *)

Module mgo.

(** A time goes to BSON as milliseconds since the epoch and comes back
    in the same location: the nanoseconds below the millisecond are
    lost, the other fields are kept. *)
Definition bsonTime (t : time.Time) : time.Time :=
  {| time.Year := time.Year t; time.Month := time.Month t;
     time.Day := time.Day t; time.Hour := time.Hour t;
     time.Minute := time.Minute t; time.Second := time.Second t;
     time.Nanosecond := (time.Nanosecond t / 1000000 * 1000000)%Z;
     time.ZoneOffset := time.ZoneOffset t |}.

Definition stored (doc : Model.todoModel) : Model.todoModel :=
  {| Model.ID := Model.ID doc; Model.Title := Model.Title doc;
     Model.Completed := Model.Completed doc;
     Model.CreatedAt := bsonTime (Model.CreatedAt doc) |}.

Definition hasId (id : bson.ObjectId) (doc : Model.todoModel) : bool :=
  String.eqb (Model.ID doc) id.

Definition logCall (c : StoreCall) (w : World) : World :=
  {| collection := collection w;
     storeCalls := storeCalls w ++ [c];
     objectIdCounter := objectIdCounter w |}.

Definition setCollection (docs : list Model.todoModel) (w : World) : World :=
  {| collection := docs;
     storeCalls := storeCalls w;
     objectIdCounter := objectIdCounter w |}.

(** [Find(bson.M{}).All(&todos)]: every document, or the error. *)
Definition FindAll (env : Env) (w : World)
  : (error + list Model.todoModel) * World :=
  let w := logCall CallFindAll w in
  match ioFault env with
  | Some err => (inl err, w)
  | None => (inr (collection w), w)
  end.

(** [Insert(doc)]: the server refuses a second document with the same
    [_id].  The new document is kept last, the natural order of a
    collection; the store promises no order, and the statements on what a
    collection holds are up to a permutation. *)
Definition Insert (env : Env) (doc : Model.todoModel) (w : World)
  : option error * World :=
  let w := logCall (CallInsert doc) w in
  match ioFault env with
  | Some err => (Some err, w)
  | None =>
      if existsb (hasId (Model.ID doc)) (collection w)
      then (Some ErrDuplicateKey, w)
      else (None, setCollection (collection w ++ [stored doc]) w)
  end.

(** The collection without its first document of the given id; [None]
    when no document has it. *)
Fixpoint removeFirst (id : bson.ObjectId) (docs : list Model.todoModel)
  : option (list Model.todoModel) :=
  match docs with
  | [] => None
  | d :: rest =>
      if hasId id d then Some rest
      else match removeFirst id rest with
           | Some rest' => Some (d :: rest')
           | None => None
           end
  end.

(** [RemoveId(id)] is [Remove(bson.D{{"_id", id}})].  Remove: "finds a
    single document matching the provided selector document and removes
    it from the database.  If the session is in safe mode (see SetSafe)
    a ErrNotFound error is returned if a document isn't found", and a
    session from [mgo.Dial] is in safe mode. *)
Definition RemoveId (env : Env) (id : bson.ObjectId) (w : World)
  : option error * World :=
  let w := logCall (CallRemoveId id) w in
  match ioFault env with
  | Some err => (Some err, w)
  | None =>
      match removeFirst id (collection w) with
      | Some docs => (None, setCollection docs w)
      | None => (Some ErrNotFound, w)
      end
  end.

(** [$set] of title and completed on the first document of the given
    id; [None] when no document has it. *)
Fixpoint setFirst (id : bson.ObjectId) (title : string) (completed : bool)
    (docs : list Model.todoModel) : option (list Model.todoModel) :=
  match docs with
  | [] => None
  | d :: rest =>
      if hasId id d
      then Some ({| Model.ID := Model.ID d; Model.Title := title;
                    Model.Completed := completed;
                    Model.CreatedAt := Model.CreatedAt d |} :: rest)
      else match setFirst id title completed rest with
           | Some rest' => Some (d :: rest')
           | None => None
           end
  end.

(** [Update(bson.M{"_id": id}, bson.M{"$set": bson.M{"title": ...,
    "completed": ...}})].  Update: "finds a single document matching
    the provided selector document and modifies it according to the
    update document.  If the session is in safe mode (see SetSafe) a
    ErrNotFound error is returned if a document isn't found". *)
Definition Update (env : Env) (id : bson.ObjectId) (title : string)
    (completed : bool) (w : World) : option error * World :=
  let w := logCall (CallUpdate id title completed) w in
  match ioFault env with
  | Some err => (Some err, w)
  | None =>
      match setFirst id title completed (collection w) with
      | Some docs => (None, setCollection docs w)
      | None => (Some ErrNotFound, w)
      end
  end.

End mgo.

(* ------------------------------------------------------------------ *)
(** ** Responses *)

Module http.
Definition StatusProcessing : Z := 102.
Definition StatusOK : Z := 200.
Definition StatusCreated : Z := 201.
Definition StatusBadRequest : Z := 400.
End http.

(** The values this program puts in a [renderer.M]. *)
Inductive value :=
| VString (s : string)
| VError (err : error)
| VTodoList (l : slice Wire.todo)
| VTodoModel (m : Model.todoModel).

(** [renderer.M] is a Go map: the order of a literal's keys is of no
    account; the keys of each literal below are distinct. *)
Definition M := list (string * value).

Fixpoint M_get (key : string) (m : M) : option value :=
  match m with
  | [] => None
  | (k, v) :: rest => if String.eqb k key then Some v else M_get key rest
  end.

(** The third argument of [rnd.JSON]: a [renderer.M] or a bare error. *)
Inductive payload :=
| PM (m : M)
| PError (err : error).

(** One call [rnd.JSON(w, status, v)]. *)
Record Response := JSON {
  status : Z;
  body : payload
}.

(** How a handler ends: it returns, leaving a world and the calls it made
    to [rnd.JSON] in order, or it panics. *)
Inductive Outcome :=
| Returned (w : World) (written : list Response)
| Panicked.

(* ------------------------------------------------------------------ *)
(** ** The handlers of main.go *)

Definition getAllTodo (env : Env) (r : Request) (w : World) : Outcome :=
  let (res, w) := mgo.FindAll env w in
  match res with
  | inl err =>
      Returned w [JSON http.StatusBadRequest
                    (PM [("message", VString "Failed to get todos");
                         ("error", VError err)])]
  | inr todos =>
      let todoList :=
        fold_left
          (fun todoList t =>
             append todoList
               {| Wire.ID := bson.Hex (Model.ID t);
                  Wire.Title := Model.Title t;
                  Wire.Completed := Model.Completed t;
                  Wire.CreatedAt :=
                    time.Format (Model.CreatedAt t) "2006-01-02 15:04:05" |})
          todos (mkSlice []) in
      Returned w [JSON http.StatusOK (PM [("data", VTodoList todoList)])]
  end.

Definition createTodo (env : Env) (r : Request) (w : World) : Outcome :=
  match Body r with
  | DecodeError err => Returned w [JSON http.StatusProcessing (PError err)]
  | DecodeOK t =>
      if String.eqb (Wire.Title t) ""
      then Returned w [JSON http.StatusBadRequest
                         (PM [("message", VString "Title is required")])]
      else
        let (id, counter) :=
          bson.NewObjectId (idSource env) (objectIdCounter w) in
        let w := {| collection := collection w;
                    storeCalls := storeCalls w;
                    objectIdCounter := counter |} in
        let todo := {| Model.ID := id;
                       Model.Title := Wire.Title t;
                       Model.Completed := false;
                       Model.CreatedAt := now env |} in
        let (err, w) := mgo.Insert env todo w in
        match err with
        | Some err =>
            Returned w [JSON http.StatusBadRequest
                          (PM [("message", VString "Failed to create todo");
                               ("error", VError err)])]
        | None =>
            Returned w [JSON http.StatusCreated
                          (PM [("message", VString "Todo created successfully");
                               ("data", VTodoModel todo)])]
        end
  end.

Definition deleteTodo (env : Env) (r : Request) (w : World) : Outcome :=
  let id := strings.TrimSpace (URLParam_id r) in
  if negb (bson.IsObjectIdHex id)
  then Returned w [JSON http.StatusBadRequest
                     (PM [("message", VString "Invalid id")])]
  else
    match bson.ObjectIdHex id with
    | None => Panicked
    | Some oid =>
        let (err, w) := mgo.RemoveId env oid w in
        match err with
        | Some err =>
            Returned w [JSON http.StatusBadRequest
                          (PM [("message", VString "Failed to delete todo");
                               ("error", VError err)])]
        | None =>
            Returned w [JSON http.StatusOK
                          (PM [("message",
                                VString "Todo deleted successfully")])]
        end
    end.

Definition updateTodo (env : Env) (r : Request) (w : World) : Outcome :=
  let id := strings.TrimSpace (URLParam_id r) in
  if negb (bson.IsObjectIdHex id)
  then Returned w [JSON http.StatusBadRequest
                     (PM [("message", VString "Invalid id")])]
  else
    match Body r with
    | DecodeError err => Returned w [JSON http.StatusProcessing (PError err)]
    | DecodeOK t =>
        if String.eqb (Wire.Title t) ""
        then Returned w [JSON http.StatusBadRequest
                           (PM [("message", VString "Title is required")])]
        else
          match bson.ObjectIdHex id with
          | None => Panicked
          | Some oid =>
              let (err, w) :=
                mgo.Update env oid (Wire.Title t) (Wire.Completed t) w in
              match err with
              | Some err =>
                  Returned w [JSON http.StatusBadRequest
                                (PM [("message",
                                      VString "Failed to update todo");
                                     ("error", VError err)])]
              | None => Returned w []
              end
          end
    end.

(* ------------------------------------------------------------------ *)
(** ** The specification's shape translator, in its own words *)

(** The numeral of [x] in exactly [width] decimal digits. *)
Fixpoint decimalRev (width : nat) (x : Z) : string :=
  match width with
  | O => EmptyString
  | S k =>
      String (match String.get (Z.to_nat (x mod 10)) "0123456789" with
              | Some c => c
              | None => "0"%char
              end)
             (decimalRev k (x / 10))
  end.

Definition decimal (width : nat) (x : Z) : string :=
  reverse (decimalRev width x).

(** "createdAt (string formatted as YYYY-MM-DD HH:MM:SS)". *)
Definition fixedFormat (t : time.Time) : string :=
  decimal 4 (time.Year t) ++ "-" ++ decimal 2 (time.Month t) ++ "-"
  ++ decimal 2 (time.Day t) ++ " " ++ decimal 2 (time.Hour t) ++ ":"
  ++ decimal 2 (time.Minute t) ++ ":" ++ decimal 2 (time.Second t).

Definition isDigit (c : ascii) : bool :=
  ((48 <=? byteN c) && (byteN c <=? 57))%N.

Definition isLetter (c : ascii) : bool :=
  ((65 <=? byteN c) && (byteN c <=? 90))%N.

(** A string has the shape of a pattern such as [YYYY-MM-DD HH:MM:SS]
    when it has a decimal digit wherever the pattern has a capital
    letter and the pattern's own character elsewhere, and nothing more. *)
Fixpoint hasShape (pattern s : string) : bool :=
  match pattern, s with
  | EmptyString, EmptyString => true
  | String p pattern', String c s' =>
      (if isLetter p then isDigit c else Ascii.eqb c p)
      && hasShape pattern' s'
  | _, _ => false
  end.

Definition isFixedFormat (s : string) : bool :=
  hasShape "YYYY-MM-DD HH:MM:SS" s.

(** "toWire(StoredRecord) -> WireRecord: identifier -> its string form;
    timestamp -> fixed-format string; title/completed copied unchanged." *)
Definition toWire (m : Model.todoModel) : Wire.todo :=
  {| Wire.ID := bson.Hex (Model.ID m);
     Wire.Title := Model.Title m;
     Wire.Completed := Model.Completed m;
     Wire.CreatedAt := fixedFormat (Model.CreatedAt m) |}.

(** "parseId(string) -> StoreKey: validates the string is a well-formed
    store key". *)
Definition parseId (s : string) : option bson.ObjectId :=
  if bson.IsObjectIdHex s then bson.ObjectIdHex s else None.

(* ------------------------------------------------------------------ *)
(** ** Vocabulary of the statements *)

(** The relation between a document and what an update with [$set] of
    title and completed on the document of id [id] leaves in its place:
    identifier and creation time are kept; the document is untouched
    unless its id is [id], and then title and completed are the new
    ones. *)
Definition updatedFrom (id : bson.ObjectId) (title : string)
    (completed : bool) (m m' : Model.todoModel) : Prop :=
  Model.ID m' = Model.ID m
  /\ Model.CreatedAt m' = Model.CreatedAt m
  /\ (m' = m
      \/ (Model.ID m = id /\ Model.Title m' = title
          /\ Model.Completed m' = completed)).

Definition invalidId : Response :=
  JSON http.StatusBadRequest (PM [("message", VString "Invalid id")]).

Definition titleRequired : Response :=
  JSON http.StatusBadRequest (PM [("message", VString "Title is required")]).

Definition deleted : Response :=
  JSON http.StatusOK (PM [("message", VString "Todo deleted successfully")]).

Definition deleteFailed (err : error) : Response :=
  JSON http.StatusBadRequest
    (PM [("message", VString "Failed to delete todo"); ("error", VError err)]).

Definition created (m : Model.todoModel) : Response :=
  JSON http.StatusCreated
    (PM [("message", VString "Todo created successfully");
         ("data", VTodoModel m)]).

Definition createFailed (err : error) : Response :=
  JSON http.StatusBadRequest
    (PM [("message", VString "Failed to create todo"); ("error", VError err)]).

Definition listed (l : slice Wire.todo) : Response :=
  JSON http.StatusOK (PM [("data", VTodoList l)]).

(** The record [createTodo] builds past its two checks: of the decoded
    body it takes the title and nothing else. *)
Definition newTodo (env : Env) (w : World) (title : string) : Model.todoModel :=
  {| Model.ID := fst (bson.NewObjectId (idSource env) (objectIdCounter w));
     Model.Title := title;
     Model.Completed := false;
     Model.CreatedAt := now env |}.

(** The world in which [createTodo] calls Insert: [bson.NewObjectId] has
    moved the counter. *)
Definition counted (env : Env) (w : World) : World :=
  {| collection := collection w;
     storeCalls := storeCalls w;
     objectIdCounter :=
       snd (bson.NewObjectId (idSource env) (objectIdCounter w)) |}.

(** A printing ASCII character other than the space. *)
Definition graphic (c : ascii) : bool :=
  ((33 <=? byteN c) && (byteN c <=? 126))%N.

Definition startsGraphic (s : string) : bool :=
  match s with
  | String c _ => graphic c
  | EmptyString => false
  end.

(** A property of every [x] with [0 <= x < n], checked by running it. *)
Fixpoint allBelow (n : nat) (p : Z -> bool) : bool :=
  match n with
  | O => true
  | S k => p (Z.of_nat k) && allBelow k p
  end.

(* ------------------------------------------------------------------ *)
(** ** Sample values *)

Module Sample.

Definition clock : time.Time :=
  {| time.Year := 2024; time.Month := 3; time.Day := 9;
     time.Hour := 7; time.Minute := 5; time.Second := 0;
     time.Nanosecond := 120000000; time.ZoneOffset := 19800 |}.

Definition env : Env :=
  {| ioFault := None;
     idSource := {| bson.unixSeconds := 1709948100;
                    bson.machineId := ("a"%char, "b"%char, "c"%char);
                    bson.processId := 4242 |};
     now := clock |}.

Definition milkId : bson.ObjectId := "milkmilkmilk".
Definition milkHex : string := "6d696c6b6d696c6b6d696c6b".
Definition otherId : bson.ObjectId := "catscatscats".
Definition otherHex : string := "636174736361747363617473".

Definition milk : Model.todoModel :=
  {| Model.ID := milkId; Model.Title := "buy milk";
     Model.Completed := false; Model.CreatedAt := clock |}.

Definition empty : World :=
  {| collection := []; storeCalls := []; objectIdCounter := 7 |}.

Definition one : World :=
  {| collection := [milk]; storeCalls := []; objectIdCounter := 7 |}.

Definition titled (title : string) (completed : bool) : Wire.todo :=
  {| Wire.ID := ""; Wire.Title := title; Wire.Completed := completed;
     Wire.CreatedAt := "" |}.

Definition request (id : string) (b : Decoded) : Request :=
  {| URLParam_id := id; Body := b |}.

End Sample.

(* ------------------------------------------------------------------ *)
(** ** Vocabulary of the further properties *)

(** The signature the four handlers share, and the handlers that
    [todoHandlers] registers. *)
Definition Handler : Type := Env -> Request -> World -> Outcome.

Definition handlers : list Handler :=
  [getAllTodo; createTodo; deleteTodo; updateTodo].

Definition listFailed (err : error) : Response :=
  JSON http.StatusBadRequest
    (PM [("message", VString "Failed to get todos"); ("error", VError err)]).

Definition updateFailed (err : error) : Response :=
  JSON http.StatusBadRequest
    (PM [("message", VString "Failed to update todo"); ("error", VError err)]).

(** The wire record the loop of [getAllTodo] makes of a document. *)
Definition listedAs (t : Model.todoModel) : Wire.todo :=
  {| Wire.ID := bson.Hex (Model.ID t);
     Wire.Title := Model.Title t;
     Wire.Completed := Model.Completed t;
     Wire.CreatedAt := time.Format (Model.CreatedAt t) "2006-01-02 15:04:05" |}.

Definition ids (w : World) : list bson.ObjectId :=
  map Model.ID (collection w).

Fixpoint forallS (p : ascii -> bool) (s : string) : bool :=
  match s with
  | EmptyString => true
  | String c s' => p c && forallS p s'
  end.

Fixpoint mapS (f : ascii -> ascii) (s : string) : string :=
  match s with
  | EmptyString => EmptyString
  | String c s' => String (f c) (mapS f s')
  end.

(** A hexadecimal digit of either case. *)
Definition isHexDigit (c : ascii) : bool :=
  (((48 <=? byteN c) && (byteN c <=? 57))
   || ((97 <=? byteN c) && (byteN c <=? 102))
   || ((65 <=? byteN c) && (byteN c <=? 70)))%N.

(** [A]..[F] to [a]..[f], every other byte kept. *)
Definition lowerHex (c : ascii) : ascii :=
  if ((65 <=? byteN c) && (byteN c <=? 70))%N
  then ascii_of_N (byteN c + 32)
  else c.

Definition isSome {A : Type} (o : option A) : bool :=
  match o with
  | Some _ => true
  | None => false
  end.

(** A time read from a clock that shows a year of four digits. *)
Definition clockOK (t : time.Time) : Prop :=
  time.valid t = true /\ (0 <= time.Year t <= 9999)%Z.

(** What the data model asks of a stored record: an identifier of 12
    bytes, a title that is not empty, a creation time from the clock. *)
Definition recordOK (m : Model.todoModel) : Prop :=
  String.length (Model.ID m) = 12
  /\ Model.Title m <> ""
  /\ clockOK (Model.CreatedAt m).

(** ... and of the collection: such records, no identifier twice. *)
Definition wellFormed (w : World) : Prop :=
  NoDup (ids w) /\ Forall recordOK (collection w).

(** A sequence of requests served one after the other, each by its
    handler with what that run reads from outside; [None] if a handler
    panics. *)
Fixpoint serve (reqs : list (Handler * Env * Request)) (w : World)
  : option World :=
  match reqs with
  | [] => Some w
  | (h, env, r) :: rest =>
      match h env r w with
      | Returned w' _ => serve rest w'
      | Panicked => None
      end
  end.

(* ------------------------------------------------------------------ *)
(** * Properties of the library functions *)

Example TrimSpace_ex1 :
  strings.TrimSpace (String (ascii_of_nat 9) " 5f1a  ") = "5f1a".
Proof. reflexivity. Qed.

Example TrimSpace_ex2 :
  strings.TrimSpace
    (String (ascii_of_nat 226) (String (ascii_of_nat 128)
      (String (ascii_of_nat 131)
        (String "a" (String " " (String "b" (String (ascii_of_nat 194)
          (String (ascii_of_nat 160) " "))))))))
  = "a b".
Proof. reflexivity. Qed.

Example TrimSpace_ex3 :
  strings.TrimSpace "x ab" = "x ab"
  /\ strings.TrimSpace " x ab " = "x ab"
  /\ strings.TrimSpace "   " = ""
  /\ strings.TrimSpace
       (String (ascii_of_nat 194) (String (ascii_of_nat 133) "ab"))
     = "ab"
  /\ strings.TrimSpace
       (String "a" (String (ascii_of_nat 133) (String (ascii_of_nat 32) "")))
     = String "a" (String (ascii_of_nat 133) "").
Proof. repeat split; reflexivity. Qed.

Example IsObjectIdHex_ex :
  bson.IsObjectIdHex "0123456789abcdefABCDEF01" = true
  /\ bson.IsObjectIdHex "xyz" = false
  /\ bson.IsObjectIdHex "0123456789abcdefABCDEF0g" = false.
Proof. repeat split; reflexivity. Qed.

Example Format_ex :
  time.Format Sample.clock "2006-01-02 15:04:05" = "2024-03-09 07:05:00".
Proof. reflexivity. Qed.

Example MarshalJSON_ex :
  time.MarshalJSON Sample.clock = Some "2024-03-09T07:05:00.12+05:30".
Proof. reflexivity. Qed.


Section Strings.

Lemma append_assoc (a b c : string) : (a ++ b) ++ c = a ++ (b ++ c).
Proof. induction a as [|x a IH]; simpl; [reflexivity | now rewrite IH]. Qed.

Lemma append_nil_r (a : string) : a ++ "" = a.
Proof. induction a as [|x a IH]; simpl; [reflexivity | now rewrite IH]. Qed.

Lemma length_app (a b : string) :
  String.length (a ++ b) = String.length a + String.length b.
Proof. induction a as [|x a IH]; simpl; [reflexivity | now rewrite IH]. Qed.

Lemma length_rev_string (acc s : string) :
  String.length (rev_string acc s) = String.length s + String.length acc.
Proof.
  revert acc; induction s as [|x s IH]; intros acc; simpl; [reflexivity|].
  rewrite IH; simpl; lia.
Qed.

Lemma length_reverse (s : string) :
  String.length (reverse s) = String.length s.
Proof. unfold reverse; rewrite length_rev_string; simpl; lia. Qed.

End Strings.

Section TrimSpace.

Lemma rev_string_rev_string (acc acc' s : string) :
  rev_string acc (rev_string acc' s) = rev_string (s ++ acc) acc'.
Proof.
  revert acc'; induction s as [|c s IH]; intros acc'; [reflexivity|].
  cbn [rev_string String.append]. now rewrite IH.
Qed.

Lemma reverse_involutive (s : string) : reverse (reverse s) = s.
Proof.
  unfold reverse. rewrite rev_string_rev_string. cbn [rev_string].
  apply append_nil_r.
Qed.

Lemma graphic_range (c : ascii) :
  graphic c = true -> (33 <= byteN c <= 126)%N.
Proof.
  unfold graphic. rewrite andb_true_iff, !N.leb_le. tauto.
Qed.

(** Deciding the comparisons of a byte known to lie in a range. *)
Ltac settle_bytes :=
  repeat match goal with
         | |- context [(?x =? ?k)%N] =>
             replace (x =? k)%N with false
               by (symmetry; apply N.eqb_neq; lia)
         | |- context [(?k <=? ?x)%N] =>
             replace (k <=? x)%N with false
               by (symmetry; apply N.leb_gt; lia)
         end;
  rewrite ?andb_false_r, ?orb_false_r; cbn [andb orb]; try reflexivity.

Lemma asciiSpace_graphic (c : ascii) :
  graphic c = true -> strings.asciiSpace c = false.
Proof.
  destruct c as [[] [] [] [] [] [] [] []]; intros H;
    (reflexivity || (cbv in H; discriminate H)).
Qed.

Lemma spaceWidth_graphic (s : string) :
  startsGraphic s = true -> strings.spaceWidth s = 0.
Proof.
  destruct s as [|a r]; [reflexivity|]. cbn [startsGraphic]. intros G.
  cbn [strings.spaceWidth]. rewrite (asciiSpace_graphic a G).
  apply graphic_range in G.
  destruct r as [|b [|c r]]; [reflexivity | |];
    unfold strings.isSpace2, strings.isSpace3; settle_bytes.
Qed.

Lemma spaceWidthLast_graphic (rs : string) :
  startsGraphic rs = true -> strings.spaceWidthLast rs = 0.
Proof.
  destruct rs as [|c r]; [reflexivity|]. cbn [startsGraphic]. intros G.
  cbn [strings.spaceWidthLast]. rewrite (asciiSpace_graphic c G).
  apply graphic_range in G.
  destruct r as [|b [|a r]]; [reflexivity | |];
    unfold strings.isSpace2, strings.isSpace3; settle_bytes.
Qed.

(** A string that starts and ends with a printing character other than
    the space is left as it is. *)
Lemma TrimSpace_graphic (s : string) :
  startsGraphic s = true -> startsGraphic (reverse s) = true ->
  strings.TrimSpace s = s.
Proof.
  intros Hs Hr. unfold strings.TrimSpace. cbv zeta.
  assert (forall fuel, strings.trimLeftSpace fuel s = s) as ->.
  { intros [|fuel]; [reflexivity|]. cbn [strings.trimLeftSpace].
    now rewrite (spaceWidth_graphic s Hs). }
  assert (forall fuel, strings.trimLastSpace fuel (reverse s) = reverse s)
    as ->.
  { intros [|fuel]; [reflexivity|]. cbn [strings.trimLastSpace].
    now rewrite (spaceWidthLast_graphic _ Hr). }
  apply reverse_involutive.
Qed.

End TrimSpace.

Section Hex.

(** One byte through the two tables and back. *)
Lemma hex_byte (v : ascii) :
  hex.fromHexChar (hex.tableAt (N.shiftr (byteN v) 4))
    = Some (N.shiftr (byteN v) 4)
  /\ hex.fromHexChar (hex.tableAt (N.land (byteN v) 15))
    = Some (N.land (byteN v) 15)
  /\ ascii_of_N (N.lor (N.shiftl (N.shiftr (byteN v) 4) 4)
                       (N.land (byteN v) 15)) = v.
Proof.
  destruct v as [[] [] [] [] [] [] [] []]; vm_compute; repeat split.
Qed.

Lemma DecodeString_EncodeToString (s : string) :
  hex.DecodeString (hex.EncodeToString s) = Some s.
Proof.
  induction s as [|v s IH]; [reflexivity|].
  destruct (hex_byte v) as (Hhi & Hlo & Hv).
  cbn [hex.EncodeToString hex.DecodeString].
  rewrite Hhi, Hlo, IH, Hv. reflexivity.
Qed.

Lemma length_EncodeToString (s : string) :
  String.length (hex.EncodeToString s) = 2 * String.length s.
Proof. induction s as [|v s IH]; simpl; [reflexivity | rewrite IH; lia]. Qed.

(** Decoding halves the length.  The induction goes two bytes at a
    time, so it is stated for a string and its tail together. *)
Lemma length_DecodeString (s : string) :
  (forall d, hex.DecodeString s = Some d ->
             String.length s = 2 * String.length d)
  /\ (forall c d, hex.DecodeString (String c s) = Some d ->
                  String.length (String c s) = 2 * String.length d).
Proof.
  induction s as [|q s [IH1 IH2]]; split.
  - intros d H; inversion H; reflexivity.
  - intros c d H; discriminate H.
  - exact (IH2 q).
  - intros c d H. cbn [hex.DecodeString] in H.
    destruct (hex.fromHexChar c); [|discriminate].
    destruct (hex.fromHexChar q); [|discriminate].
    destruct (hex.DecodeString s) as [d'|] eqn:E; [|discriminate].
    inversion H; subst d. specialize (IH1 d' eq_refl).
    cbn [String.length]. lia.
Qed.

Lemma IsObjectIdHex_Hex (id : bson.ObjectId) :
  String.length id = 12 -> bson.IsObjectIdHex (bson.Hex id) = true.
Proof.
  intros H. unfold bson.IsObjectIdHex, bson.Hex.
  rewrite length_EncodeToString, H, DecodeString_EncodeToString.
  reflexivity.
Qed.

Lemma ObjectIdHex_Hex (id : bson.ObjectId) :
  String.length id = 12 -> bson.ObjectIdHex (bson.Hex id) = Some id.
Proof.
  intros H. unfold bson.ObjectIdHex, bson.Hex.
  rewrite DecodeString_EncodeToString, H. reflexivity.
Qed.

(** After the check of [IsObjectIdHex], [ObjectIdHex] does not panic. *)
Lemma ObjectIdHex_defined (s : string) :
  bson.IsObjectIdHex s = true ->
  exists oid, bson.ObjectIdHex s = Some oid /\ String.length oid = 12.
Proof.
  unfold bson.IsObjectIdHex, bson.ObjectIdHex. intros H.
  destruct (Nat.eqb (String.length s) 24) eqn:L; [|discriminate].
  apply Nat.eqb_eq in L.
  destruct (hex.DecodeString s) as [d|] eqn:E; [|discriminate].
  apply (proj1 (length_DecodeString s)) in E.
  assert (String.length d = 12) as Ld by lia.
  exists d. split; [rewrite Ld; reflexivity | exact Ld].
Qed.

Lemma length_NewObjectId (src : bson.IdSource) (counter : Z) :
  String.length (fst (bson.NewObjectId src counter)) = 12.
Proof.
  unfold bson.NewObjectId. destruct (bson.machineId src) as [[m0 m1] m2].
  reflexivity.
Qed.

End Hex.

Section Time.

Lemma allBelow_sound (n : nat) (p : Z -> bool) :
  allBelow n p = true ->
  forall x, (0 <= x < Z.of_nat n)%Z -> p x = true.
Proof.
  induction n as [|k IH]; intros H x Hx; [lia|].
  cbn [allBelow] in H. apply andb_true_iff in H as [Hk Hrest].
  destruct (Z.eq_dec x (Z.of_nat k)) as [->|Hne]; [exact Hk|].
  apply IH; [exact Hrest | lia].
Qed.

Lemma appendInt_app (b : string) (x : Z) (width : nat) :
  time.appendInt b x width = b ++ time.appendInt "" x width.
Proof.
  unfold time.appendInt. destruct (x <? 0)%Z; cbn [String.append].
  - now rewrite append_assoc.
  - reflexivity.
Qed.

(** [appendInt] at widths 2 and 4 writes the numeral of that width. *)
Lemma appendInt_2 (b : string) (x : Z) :
  (0 <= x < 100)%Z -> time.appendInt b x 2 = b ++ decimal 2 x.
Proof.
  intros Hx. rewrite appendInt_app. f_equal.
  apply String.eqb_eq.
  apply (allBelow_sound 100
           (fun x => String.eqb (time.appendInt "" x 2) (decimal 2 x)));
    [vm_compute; reflexivity | lia].
Qed.

Lemma appendInt_4 (b : string) (x : Z) :
  (0 <= x < 10000)%Z -> time.appendInt b x 4 = b ++ decimal 4 x.
Proof.
  intros Hx. rewrite appendInt_app. f_equal.
  apply String.eqb_eq.
  apply (allBelow_sound (Z.to_nat 10000)
           (fun x => String.eqb (time.appendInt "" x 4) (decimal 4 x)));
    [vm_compute; reflexivity | lia].
Qed.

Lemma appendNano_app (b : string) (nanosec : Z) (n : nat) :
  time.appendNano b nanosec n = b ++ time.appendNano "" nanosec n.
Proof.
  unfold time.appendNano.
  destruct (Nat.eqb n 0 || (nanosec =? 0)%Z);
    [now rewrite append_nil_r | reflexivity].
Qed.

Lemma appendZone_app (b : string) (offset : Z) :
  time.appendZone b offset = b ++ time.appendZone "" offset.
Proof.
  unfold time.appendZone. destruct (offset =? 0)%Z; [reflexivity|].
  destruct (Z.quot offset 60 <? 0)%Z; cbn [String.append];
    rewrite !(appendInt_app (_ ++ ":")), (appendInt_app (b ++ _)),
            (appendInt_app (String _ ""));
    cbn [String.append]; rewrite !append_assoc; reflexivity.
Qed.

Lemma length_decimalRev (width : nat) (x : Z) :
  String.length (decimalRev width x) = width.
Proof.
  revert x; induction width as [|k IH]; intros x; simpl;
    [reflexivity | now rewrite IH].
Qed.

Lemma length_decimal (width : nat) (x : Z) :
  String.length (decimal width x) = width.
Proof. unfold decimal. now rewrite length_reverse, length_decimalRev. Qed.

Lemma isDigit_decimal_2 (x : Z) :
  (0 <= x < 100)%Z -> hasShape "DD" (decimal 2 x) = true.
Proof.
  intros Hx.
  apply (allBelow_sound 100 (fun x => hasShape "DD" (decimal 2 x)));
    [vm_compute; reflexivity | lia].
Qed.

Lemma hasShape_decimal_2 (a b : ascii) (x : Z) :
  isLetter a = true -> isLetter b = true -> (0 <= x < 100)%Z ->
  hasShape (String a (String b "")) (decimal 2 x) = true.
Proof.
  intros Ha Hb Hx. pose proof (isDigit_decimal_2 x Hx) as H.
  destruct (decimal 2 x) as [|c1 [|c2 [|c3 s]]];
    cbn [hasShape] in H |- *; rewrite ?Ha, ?Hb;
    change (isLetter "D") with true in H; exact H.
Qed.

Lemma isDigit_decimal_4 (x : Z) :
  (0 <= x < 10000)%Z -> hasShape "YYYY" (decimal 4 x) = true.
Proof.
  intros Hx.
  apply (allBelow_sound (Z.to_nat 10000)
           (fun x => hasShape "YYYY" (decimal 4 x)));
    [vm_compute; reflexivity | lia].
Qed.

Lemma hasShape_app (p1 p2 s1 s2 : string) :
  String.length p1 = String.length s1 ->
  hasShape (p1 ++ p2) (s1 ++ s2) = hasShape p1 s1 && hasShape p2 s2.
Proof.
  revert s1; induction p1 as [|p p1 IH]; intros [|c s1] L;
    try discriminate L.
  - destruct p2, s2; reflexivity.
  - cbn [String.append hasShape]. injection L as L.
    rewrite (IH s1 L). now rewrite andb_assoc.
Qed.

Lemma valid_ranges (t : time.Time) :
  time.valid t = true ->
  (1 <= time.Month t <= 12 /\ 1 <= time.Day t <= 31
   /\ 0 <= time.Hour t <= 23 /\ 0 <= time.Minute t <= 59
   /\ 0 <= time.Second t <= 59
   /\ 0 <= time.Nanosecond t < 1000000000)%Z.
Proof.
  unfold time.valid. rewrite !andb_true_iff, !Z.leb_le, Z.ltb_lt. lia.
Qed.

Lemma chunks_fixed :
  time.chunks 19 "2006-01-02 15:04:05"
  = [time.Std time.stdLongYear; time.Lit "-"; time.Std time.stdZeroMonth;
     time.Lit "-"; time.Std time.stdZeroDay; time.Lit " ";
     time.Std time.stdHour; time.Lit ":"; time.Std time.stdZeroMinute;
     time.Lit ":"; time.Std time.stdZeroSecond].
Proof. reflexivity. Qed.

Lemma chunks_RFC3339Nano :
  time.chunks 35 time.RFC3339Nano
  = [time.Std time.stdLongYear; time.Lit "-"; time.Std time.stdZeroMonth;
     time.Lit "-"; time.Std time.stdZeroDay; time.Lit "T";
     time.Std time.stdHour; time.Lit ":"; time.Std time.stdZeroMinute;
     time.Lit ":"; time.Std time.stdZeroSecond;
     time.Std (time.stdFracSecond9 9); time.Std time.stdISO8601ColonTZ].
Proof. reflexivity. Qed.

(** The source's [Format] with the layout of [getAllTodo] writes the
    specification's fixed format. *)
Lemma Format_fixed (t : time.Time) :
  time.valid t = true -> (0 <= time.Year t <= 9999)%Z ->
  time.Format t "2006-01-02 15:04:05" = fixedFormat t.
Proof.
  intros Hv Hy. apply valid_ranges in Hv.
  unfold time.Format. change (String.length "2006-01-02 15:04:05") with 19.
  rewrite chunks_fixed. cbn [fold_left time.appendChunk].
  rewrite !appendInt_2, appendInt_4 by lia.
  unfold fixedFormat. cbn [String.append].
  rewrite !append_assoc. reflexivity.
Qed.

(** The time's JSON form starts with the date and a [T]. *)
Lemma Format_RFC3339Nano (t : time.Time) :
  time.valid t = true -> (0 <= time.Year t <= 9999)%Z ->
  time.Format t time.RFC3339Nano
  = (decimal 4 (time.Year t) ++ "-" ++ decimal 2 (time.Month t) ++ "-"
     ++ decimal 2 (time.Day t))
    ++ "T" ++ decimal 2 (time.Hour t) ++ ":" ++ decimal 2 (time.Minute t)
    ++ ":" ++ decimal 2 (time.Second t)
    ++ time.appendNano "" (time.Nanosecond t) 9
    ++ time.appendZone "" (time.ZoneOffset t).
Proof.
  intros Hv Hy. apply valid_ranges in Hv.
  unfold time.Format. change (String.length time.RFC3339Nano) with 35.
  rewrite chunks_RFC3339Nano. cbn [fold_left time.appendChunk].
  rewrite appendZone_app, appendNano_app.
  rewrite !appendInt_2, appendInt_4 by lia.
  cbn [String.append]. rewrite !append_assoc. cbn [String.append].
  rewrite !append_assoc. reflexivity.
Qed.

Lemma isFixedFormat_fixedFormat (t : time.Time) :
  time.valid t = true -> (0 <= time.Year t <= 9999)%Z ->
  isFixedFormat (fixedFormat t) = true.
Proof.
  intros Hv Hy. apply valid_ranges in Hv.
  unfold isFixedFormat, fixedFormat.
  change "YYYY-MM-DD HH:MM:SS"
    with ("YYYY" ++ "-" ++ "MM" ++ "-" ++ "DD" ++ " " ++ "HH" ++ ":"
          ++ "MM" ++ ":" ++ "SS").
  repeat (rewrite hasShape_app
            by (rewrite ?length_decimal; reflexivity)).
  rewrite isDigit_decimal_4, !hasShape_decimal_2
    by (reflexivity || lia).
  reflexivity.
Qed.

Lemma MarshalJSON_not_fixed (t : time.Time) (s : string) :
  time.valid t = true -> time.MarshalJSON t = Some s ->
  isFixedFormat s = false.
Proof.
  intros Hv HM. unfold time.MarshalJSON in HM.
  destruct ((time.Year t <? 0)%Z || (10000 <=? time.Year t)%Z) eqn:E;
    [discriminate|].
  apply orb_false_iff in E as [E1 E2].
  apply Z.ltb_ge in E1. apply Z.leb_gt in E2.
  injection HM as <-.
  rewrite Format_RFC3339Nano by (assumption || lia).
  unfold isFixedFormat.
  change "YYYY-MM-DD HH:MM:SS" with ("YYYY-MM-DD" ++ " HH:MM:SS").
  rewrite hasShape_app.
  - cbn [String.append hasShape isLetter byteN N_of_ascii N_of_digits].
    apply andb_false_iff; right. reflexivity.
  - rewrite !length_app, !length_decimal. reflexivity.
Qed.

End Time.

(* ------------------------------------------------------------------ *)
(** * Properties of the collection *)

Section Collection.

Lemma updatedFrom_refl id title completed (docs : list Model.todoModel) :
  Forall2 (updatedFrom id title completed) docs docs.
Proof.
  induction docs as [|d docs IH]; constructor; [|exact IH].
  repeat split; now left.
Qed.

Lemma setFirst_frame id title completed (docs docs' : list Model.todoModel) :
  mgo.setFirst id title completed docs = Some docs' ->
  Forall2 (updatedFrom id title completed) docs docs'.
Proof.
  revert docs'; induction docs as [|d docs IH]; intros docs' H;
    cbn [mgo.setFirst] in H; [discriminate|].
  destruct (mgo.hasId id d) eqn:E.
  - injection H as <-. constructor; [|apply updatedFrom_refl].
    apply String.eqb_eq in E.
    repeat split; right; repeat split; exact E.
  - destruct (mgo.setFirst id title completed docs) as [rest|];
      [|discriminate].
    injection H as <-. constructor; [|now apply IH].
    repeat split; now left.
Qed.

Lemma setFirst_hit id title completed (docs docs' : list Model.todoModel) :
  mgo.setFirst id title completed docs = Some docs' ->
  Exists (fun m' => Model.ID m' = id /\ Model.Title m' = title
                    /\ Model.Completed m' = completed) docs'.
Proof.
  revert docs'; induction docs as [|d docs IH]; intros docs' H;
    cbn [mgo.setFirst] in H; [discriminate|].
  destruct (mgo.hasId id d) eqn:E.
  - injection H as <-. apply String.eqb_eq in E.
    apply Exists_cons_hd. repeat split; exact E.
  - destruct (mgo.setFirst id title completed docs) as [rest|];
      [|discriminate].
    injection H as <-. apply Exists_cons_tl. now apply IH.
Qed.

Lemma removeFirst_absent id (docs : list Model.todoModel) :
  existsb (mgo.hasId id) docs = false <-> mgo.removeFirst id docs = None.
Proof.
  induction docs as [|d docs IH]; cbn [existsb mgo.removeFirst];
    [tauto|].
  destruct (mgo.hasId id d); cbn [orb].
  - split; discriminate.
  - rewrite IH. destruct (mgo.removeFirst id docs); split;
      (discriminate || reflexivity).
Qed.

Lemma removeFirst_length id (docs docs' : list Model.todoModel) :
  mgo.removeFirst id docs = Some docs' ->
  List.length docs = S (List.length docs').
Proof.
  revert docs'; induction docs as [|d docs IH]; intros docs' H;
    cbn [mgo.removeFirst] in H; [discriminate|].
  destruct (mgo.hasId id d).
  - injection H as <-. reflexivity.
  - destruct (mgo.removeFirst id docs) as [rest|]; [|discriminate].
    injection H as <-. cbn [List.length]. now rewrite (IH rest).
Qed.

(** The loop of [getAllTodo] appends one wire record per document. *)
Lemma range_append {A B : Type} (f : A -> B) (todos : list A) (acc : list B) :
  fold_left (fun todoList t => append todoList (f t)) todos (mkSlice acc)
  = mkSlice (acc ++ map f todos).
Proof.
  revert acc; induction todos as [|t todos IH]; intros acc;
    cbn [fold_left map append].
  - now rewrite app_nil_r.
  - rewrite IH, <- app_assoc. reflexivity.
Qed.

End Collection.

(* ------------------------------------------------------------------ *)
(** * Properties of the handlers *)

Section Handlers.

Variables (env : Env) (r : Request) (w : World).

(** What [getAllTodo] sends when the query succeeds, before any
    assumption on the stored times. *)
Lemma getAllTodo_ok :
  ioFault env = None ->
  getAllTodo env r w
  = Returned (mgo.logCall CallFindAll w)
      [listed (mkSlice
         (map (fun t =>
                 {| Wire.ID := bson.Hex (Model.ID t);
                    Wire.Title := Model.Title t;
                    Wire.Completed := Model.Completed t;
                    Wire.CreatedAt :=
                      time.Format (Model.CreatedAt t) "2006-01-02 15:04:05" |})
              (collection w)))].
Proof.
  intros Hio. unfold getAllTodo, mgo.FindAll. rewrite Hio.
  rewrite range_append. reflexivity.
Qed.

End Handlers.

(** Every handler returns: the one call that can panic,
    [bson.ObjectIdHex], is made on strings that passed
    [bson.IsObjectIdHex]. *)
Lemma handlers_return (env : Env) (r : Request) (w : World) :
  getAllTodo env r w <> Panicked
  /\ createTodo env r w <> Panicked
  /\ deleteTodo env r w <> Panicked
  /\ updateTodo env r w <> Panicked.
Proof.
  repeat split.
  - unfold getAllTodo. destruct (mgo.FindAll env w) as [[err|todos] w1];
      discriminate.
  - unfold createTodo. destruct (Body r); [discriminate|].
    destruct (String.eqb _ _); [discriminate|].
    destruct (bson.NewObjectId _ _) as [id counter].
    destruct (mgo.Insert _ _ _) as [[err|] w1]; discriminate.
  - unfold deleteTodo. cbv zeta.
    destruct (bson.IsObjectIdHex _) eqn:E; [|discriminate].
    destruct (ObjectIdHex_defined _ E) as (oid & -> & _). cbn [negb].
    destruct (mgo.RemoveId _ _ _) as [[err|] w1]; discriminate.
  - unfold updateTodo. cbv zeta.
    destruct (bson.IsObjectIdHex _) eqn:E; [|discriminate].
    destruct (ObjectIdHex_defined _ E) as (oid & -> & _). cbn [negb].
    destruct (Body r); [discriminate|].
    destruct (String.eqb _ _); [discriminate|].
    destruct (mgo.Update _ _ _ _ _) as [[err|] w1]; discriminate.
Qed.

(* ------------------------------------------------------------------ *)
(** * The claims *)

(** C7.  A delete or update request whose path id, once trimmed of white
    space, is not a well-formed store key ([bson.IsObjectIdHex] refuses
    it) is answered with 400 and the message "Invalid id", and the
    handler returns the world it was given: nothing is added to the log
    of store calls and the collection is the same. *)
Theorem malformed_id_is_rejected (env : Env) (r : Request) (w : World) :
  bson.IsObjectIdHex (strings.TrimSpace (URLParam_id r)) = false ->
  deleteTodo env r w = Returned w [invalidId]
  /\ updateTodo env r w = Returned w [invalidId].
Proof.
  intros H. unfold deleteTodo, updateTodo. cbv zeta. rewrite H.
  split; reflexivity.
Qed.

Lemma malformed_id_is_rejected_witness :
  deleteTodo Sample.env (Sample.request " xyz " (DecodeError (ErrDecode "EOF")))
    Sample.one
  = Returned Sample.one [invalidId]
  /\ updateTodo Sample.env
       (Sample.request " xyz " (DecodeError (ErrDecode "EOF"))) Sample.one
     = Returned Sample.one [invalidId].
Proof.
  apply (malformed_id_is_rejected Sample.env
           (Sample.request " xyz " (DecodeError (ErrDecode "EOF")))
           Sample.one).
  reflexivity.
Defined.

(** C5, as the code has it.  When decoding the body fails, [createTodo],
    and [updateTodo] on a request with a well-formed path id, call
    [rnd.JSON] with status 102 (Processing) and the decoder's error
    itself as the value, and return the world they were given (no store
    call).  [createTodo] decodes first; [updateTodo] decodes once the
    path id has passed its check, which comes first in the handler. *)
Theorem malformed_body_is_processing
    (env : Env) (r : Request) (w : World) (err : error) :
  Body r = DecodeError err ->
  createTodo env r w = Returned w [JSON http.StatusProcessing (PError err)]
  /\ (bson.IsObjectIdHex (strings.TrimSpace (URLParam_id r)) = true ->
      updateTodo env r w
      = Returned w [JSON http.StatusProcessing (PError err)]).
Proof.
  intros HB. unfold createTodo, updateTodo. cbv zeta. rewrite HB.
  split; [reflexivity|]. intros ->. reflexivity.
Qed.

Lemma malformed_body_is_processing_witness :
  createTodo Sample.env
    (Sample.request Sample.milkHex (DecodeError (ErrDecode "unexpected EOF")))
    Sample.one
  = Returned Sample.one
      [JSON 102 (PError (ErrDecode "unexpected EOF"))]
  /\ updateTodo Sample.env
       (Sample.request Sample.milkHex
          (DecodeError (ErrDecode "unexpected EOF")))
       Sample.one
     = Returned Sample.one
         [JSON 102 (PError (ErrDecode "unexpected EOF"))].
Proof.
  destruct (malformed_body_is_processing Sample.env
              (Sample.request Sample.milkHex
                 (DecodeError (ErrDecode "unexpected EOF")))
              Sample.one (ErrDecode "unexpected EOF") eq_refl) as [Hc Hu].
  split; [exact Hc | apply Hu; reflexivity].
Defined.

(** C5 as stated fails on an update whose path id is malformed: the id
    check comes before the decoding, so a body that does not decode is
    never read, and the answer is 400 "Invalid id", not 102 with the
    decoder's error. *)
Lemma malformed_body_behind_malformed_id :
  Body (Sample.request "xyz" (DecodeError (ErrDecode "unexpected EOF")))
  = DecodeError (ErrDecode "unexpected EOF")
  /\ updateTodo Sample.env
       (Sample.request "xyz" (DecodeError (ErrDecode "unexpected EOF")))
       Sample.one
     = Returned Sample.one
         [JSON 400 (PM [("message", VString "Invalid id")])]
  /\ updateTodo Sample.env
       (Sample.request "xyz" (DecodeError (ErrDecode "unexpected EOF")))
       Sample.one
     <> Returned Sample.one
          [JSON 102 (PError (ErrDecode "unexpected EOF"))].
Proof.
  split; [reflexivity|]. split; [reflexivity|]. discriminate.
Qed.

(** C3, as the code has it.  The check is [t.Title == ""]: a create
    request whose decoded title is the empty string, and an update request
    with a well-formed path id whose decoded title is the empty string, is
    answered with 400 and the message "Title is required", and the handler
    returns the world it was given (no store call, nothing inserted or
    modified). *)
Theorem empty_title_is_rejected
    (env : Env) (r : Request) (w : World) (t : Wire.todo) :
  Body r = DecodeOK t -> Wire.Title t = "" ->
  createTodo env r w = Returned w [titleRequired]
  /\ (bson.IsObjectIdHex (strings.TrimSpace (URLParam_id r)) = true ->
      updateTodo env r w = Returned w [titleRequired]).
Proof.
  intros HB HT. unfold createTodo, updateTodo. cbv zeta. rewrite HB, HT.
  split; [reflexivity|]. intros ->. reflexivity.
Qed.

Lemma empty_title_is_rejected_witness :
  createTodo Sample.env
    (Sample.request Sample.milkHex (DecodeOK (Sample.titled "" true)))
    Sample.one
  = Returned Sample.one [titleRequired]
  /\ updateTodo Sample.env
       (Sample.request Sample.milkHex (DecodeOK (Sample.titled "" true)))
       Sample.one
     = Returned Sample.one [titleRequired].
Proof.
  destruct (empty_title_is_rejected Sample.env
              (Sample.request Sample.milkHex (DecodeOK (Sample.titled "" true)))
              Sample.one (Sample.titled "" true) eq_refl eq_refl) as [Hc Hu].
  split; [exact Hc | apply Hu; reflexivity].
Defined.

(** C3 as stated fails on a title of white space only: the title " " is
    empty once trimmed, yet [createTodo] answers 201 and has called
    Insert, and [updateTodo] has called Update and changed the stored
    title to " ". *)
Lemma blank_title_reaches_the_store :
  strings.TrimSpace " " = ""
  /\ (exists w',
        createTodo Sample.env
          (Sample.request "" (DecodeOK (Sample.titled " " false))) Sample.empty
        = Returned w' [created (newTodo Sample.env Sample.empty " ")]
        /\ storeCalls w' = [CallInsert (newTodo Sample.env Sample.empty " ")]
        /\ collection w' = [mgo.stored (newTodo Sample.env Sample.empty " ")])
  /\ (exists w',
        updateTodo Sample.env
          (Sample.request Sample.milkHex (DecodeOK (Sample.titled " " false)))
          Sample.one
        = Returned w' []
        /\ storeCalls w' = [CallUpdate Sample.milkId " " false]
        /\ map Model.Title (collection w') = [" "]).
Proof.
  split; [reflexivity|].
  split; eexists; (split; [reflexivity|]); split; reflexivity.
Qed.

(** C8.  An update request that passes the id check, whose body decodes,
    whose title is not empty and whose store write returns no error makes
    no call to [rnd.JSON]: the handler returns with nothing written, in
    the world the store write left. *)
Theorem update_success_writes_nothing
    (env : Env) (r : Request) (w w' : World) (t : Wire.todo)
    (oid : bson.ObjectId) :
  bson.IsObjectIdHex (strings.TrimSpace (URLParam_id r)) = true ->
  bson.ObjectIdHex (strings.TrimSpace (URLParam_id r)) = Some oid ->
  Body r = DecodeOK t ->
  Wire.Title t <> "" ->
  mgo.Update env oid (Wire.Title t) (Wire.Completed t) w = (None, w') ->
  updateTodo env r w = Returned w' [].
Proof.
  intros Hid Hoid HB HT HU. apply String.eqb_neq in HT.
  unfold updateTodo. cbv zeta. rewrite Hid, HB, HT, Hoid, HU. reflexivity.
Qed.

Lemma update_success_writes_nothing_witness :
  updateTodo Sample.env
    (Sample.request Sample.milkHex
       (DecodeOK (Sample.titled "buy oat milk" true)))
    Sample.one
  = Returned
      {| collection :=
           [{| Model.ID := Sample.milkId; Model.Title := "buy oat milk";
               Model.Completed := true; Model.CreatedAt := Sample.clock |}];
         storeCalls := [CallUpdate Sample.milkId "buy oat milk" true];
         objectIdCounter := 7 |}
      [].
Proof.
  apply (update_success_writes_nothing Sample.env
           (Sample.request Sample.milkHex
              (DecodeOK (Sample.titled "buy oat milk" true)))
           Sample.one _ (Sample.titled "buy oat milk" true) Sample.milkId).
  - reflexivity.
  - reflexivity.
  - reflexivity.
  - discriminate.
  - reflexivity.
Defined.

(** C9.  On an empty collection (and a query that does not fail) the list
    handler answers 200 with a "data" field that is present and holds an
    empty, non-nil slice, which encoding/json writes as the array [[]]
    and not as [null]. *)
Theorem empty_collection_lists_empty_array
    (env : Env) (r : Request) (w : World) :
  ioFault env = None ->
  collection w = [] ->
  exists body_ data,
    getAllTodo env r w
    = Returned (mgo.logCall CallFindAll w) [JSON http.StatusOK (PM body_)]
    /\ M_get "data" body_ = Some (VTodoList data)
    /\ json.MarshalTodoList data = json.Array []
    /\ json.MarshalTodoList data <> json.Null.
Proof.
  intros Hio Hc. rewrite (getAllTodo_ok env r w Hio), Hc.
  exists [("data", VTodoList (mkSlice []))], (mkSlice []).
  repeat split. discriminate.
Qed.

Lemma empty_collection_lists_empty_array_witness :
  exists body_ data,
    getAllTodo Sample.env (Sample.request "" (DecodeError (ErrDecode "EOF")))
      Sample.empty
    = Returned (mgo.logCall CallFindAll Sample.empty)
        [JSON http.StatusOK (PM body_)]
    /\ M_get "data" body_ = Some (VTodoList data)
    /\ json.MarshalTodoList data = json.Array []
    /\ json.MarshalTodoList data <> json.Null.
Proof.
  apply (empty_collection_lists_empty_array Sample.env
           (Sample.request "" (DecodeError (ErrDecode "EOF"))) Sample.empty);
    reflexivity.
Defined.

(** C6.  When the query succeeds, the list handler answers 200 with, for
    each stored record in the order of the collection, the wire record
    the specification's [toWire] makes of it: the identifier in its
    hexadecimal string form, the timestamp as YYYY-MM-DD HH:MM:SS, title
    and completed copied.  The stored times are times read from the
    clock, with a year of four digits. *)
Theorem list_sends_wire_records (env : Env) (r : Request) (w : World) :
  ioFault env = None ->
  Forall (fun m => time.valid (Model.CreatedAt m) = true
                   /\ (0 <= time.Year (Model.CreatedAt m) <= 9999)%Z)
         (collection w) ->
  getAllTodo env r w
  = Returned (mgo.logCall CallFindAll w)
      [listed (mkSlice (map toWire (collection w)))]
  /\ Forall (fun m =>
               Wire.Title (toWire m) = Model.Title m
               /\ Wire.Completed (toWire m) = Model.Completed m
               /\ hex.DecodeString (Wire.ID (toWire m)) = Some (Model.ID m)
               /\ isFixedFormat (Wire.CreatedAt (toWire m)) = true)
            (collection w).
Proof.
  intros Hio Hv. rewrite (getAllTodo_ok env r w Hio). split.
  - match goal with
    | |- context [map ?f (collection w)] =>
        assert (map f (collection w) = map toWire (collection w)) as ->
    end; [|reflexivity].
    induction Hv as [|m docs [Hm Hy] _ IH]; [reflexivity|].
    cbn [map]. rewrite IH. unfold toWire at 1.
    now rewrite (Format_fixed _ Hm Hy).
  - induction Hv as [|m docs [Hm Hy] _ IH]; constructor; [|exact IH].
    repeat split.
    + apply DecodeString_EncodeToString.
    + now apply isFixedFormat_fixedFormat.
Qed.

Lemma list_sends_wire_records_witness :
  getAllTodo Sample.env (Sample.request "" (DecodeError (ErrDecode "EOF")))
    Sample.one
  = Returned (mgo.logCall CallFindAll Sample.one)
      [listed (mkSlice
         [{| Wire.ID := "6d696c6b6d696c6b6d696c6b"; Wire.Title := "buy milk";
             Wire.Completed := false;
             Wire.CreatedAt := "2024-03-09 07:05:00" |}])].
Proof.
  refine (proj1 (list_sends_wire_records Sample.env
                   (Sample.request "" (DecodeError (ErrDecode "EOF")))
                   Sample.one eq_refl _)).
  repeat constructor; cbn; lia.
Defined.

(** What a successful update did: the outcome of [updateTodo] with
    nothing written comes from the branch in which Update found a
    document. *)
Lemma updateTodo_silent
    (env : Env) (r : Request) (w w' : World) (t : Wire.todo)
    (oid : bson.ObjectId) :
  bson.ObjectIdHex (strings.TrimSpace (URLParam_id r)) = Some oid ->
  Body r = DecodeOK t ->
  updateTodo env r w = Returned w' [] ->
  exists docs,
    mgo.setFirst oid (Wire.Title t) (Wire.Completed t) (collection w)
    = Some docs
    /\ collection w' = docs.
Proof.
  intros Hoid HB. unfold updateTodo. cbv zeta. rewrite HB, Hoid.
  destruct (negb _); [discriminate|].
  destruct (String.eqb _ _); [discriminate|].
  unfold mgo.Update. destruct (ioFault env); [discriminate|].
  cbn [mgo.logCall collection].
  destruct (mgo.setFirst _ _ _ _) as [docs|]; [|discriminate].
  intros H. injection H as <-. exists docs. split; reflexivity.
Qed.

(** C4.  A successful update (the handler returned without writing an
    error) leaves the collection with the same records in the same
    places, each with the identifier and the createdAt it had; a record
    differs from what it was only if its id is the target's, and then in
    title and completed, which are the request's; and such a record is in
    the collection afterwards. *)
Theorem update_keeps_id_and_createdAt
    (env : Env) (r : Request) (w w' : World) (t : Wire.todo)
    (oid : bson.ObjectId) :
  bson.ObjectIdHex (strings.TrimSpace (URLParam_id r)) = Some oid ->
  Body r = DecodeOK t ->
  updateTodo env r w = Returned w' [] ->
  Forall2 (updatedFrom oid (Wire.Title t) (Wire.Completed t))
          (collection w) (collection w')
  /\ Exists (fun m' => Model.ID m' = oid
                       /\ Model.Title m' = Wire.Title t
                       /\ Model.Completed m' = Wire.Completed t)
            (collection w').
Proof.
  intros Hoid HB H.
  destruct (updateTodo_silent env r w w' t oid Hoid HB H) as (docs & Hs & ->).
  split; [now apply setFirst_frame | now apply (setFirst_hit _ _ _ _ _ Hs)].
Qed.

Lemma update_keeps_id_and_createdAt_witness :
  Forall2 (updatedFrom Sample.milkId "buy oat milk" true)
    [Sample.milk]
    [{| Model.ID := Sample.milkId; Model.Title := "buy oat milk";
        Model.Completed := true; Model.CreatedAt := Sample.clock |}]
  /\ Exists (fun m' => Model.ID m' = Sample.milkId
                       /\ Model.Title m' = "buy oat milk"
                       /\ Model.Completed m' = true)
       [{| Model.ID := Sample.milkId; Model.Title := "buy oat milk";
           Model.Completed := true; Model.CreatedAt := Sample.clock |}].
Proof.
  apply (update_keeps_id_and_createdAt Sample.env
           (Sample.request Sample.milkHex
              (DecodeOK (Sample.titled "buy oat milk" true)))
           Sample.one
           {| collection :=
                [{| Model.ID := Sample.milkId; Model.Title := "buy oat milk";
                    Model.Completed := true;
                    Model.CreatedAt := Sample.clock |}];
              storeCalls := [CallUpdate Sample.milkId "buy oat milk" true];
              objectIdCounter := 7 |}
           (Sample.titled "buy oat milk" true) Sample.milkId);
    reflexivity.
Defined.

(** What [createTodo] does once the body has decoded and the title has
    passed: one Insert of [newTodo], in the world [counted], and an
    answer by what Insert returns. *)
Lemma createTodo_insert
    (env : Env) (r : Request) (w : World) (t : Wire.todo) :
  Body r = DecodeOK t -> Wire.Title t <> "" ->
  createTodo env r w
  = match mgo.Insert env (newTodo env w (Wire.Title t)) (counted env w) with
    | (Some err, w') => Returned w' [createFailed err]
    | (None, w') => Returned w' [created (newTodo env w (Wire.Title t))]
    end.
Proof.
  intros HB HT. apply String.eqb_neq in HT.
  unfold createTodo, newTodo, counted. rewrite HB, HT.
  destruct (bson.NewObjectId (idSource env) (objectIdCounter w))
    as [id counter].
  cbn [fst snd]. destruct (mgo.Insert _ _ _) as [[err|] w']; reflexivity.
Qed.

(** C10.  A create request whose body decodes with a non-empty title
    hands the store one record, [newTodo]: its completed is [false], its
    identifier is the one [bson.NewObjectId] makes and its createdAt is
    the reading of [time.Now()].  When the round trip does not fail and
    no stored record has that identifier, the answer is 201 with that
    record, and the collection is what it was plus that record as the
    store keeps it, completed [false] too.  Every 201 answer carries that
    record, and the record is then in the collection.  The id, completed
    and createdAt of the decoded body play no part: two bodies with the
    same title give the same outcome. *)
Theorem create_takes_only_the_title
    (env : Env) (r : Request) (w : World) (t : Wire.todo) :
  Body r = DecodeOK t -> Wire.Title t <> "" ->
  (exists w' written,
     createTodo env r w = Returned w' written
     /\ storeCalls w'
        = (storeCalls w ++ [CallInsert (newTodo env w (Wire.Title t))])%list)
  /\ (ioFault env = None ->
      existsb (mgo.hasId (Model.ID (newTodo env w (Wire.Title t))))
        (collection w) = false ->
      exists w',
        createTodo env r w
        = Returned w' [created (newTodo env w (Wire.Title t))]
        /\ Permutation (collection w')
             (mgo.stored (newTodo env w (Wire.Title t)) :: collection w))
  /\ (forall w' m,
        createTodo env r w = Returned w' [created m] ->
        m = newTodo env w (Wire.Title t)
        /\ In (mgo.stored (newTodo env w (Wire.Title t))) (collection w'))
  /\ Model.Completed (newTodo env w (Wire.Title t)) = false
  /\ Model.Completed (mgo.stored (newTodo env w (Wire.Title t))) = false
  /\ Model.ID (newTodo env w (Wire.Title t))
     = fst (bson.NewObjectId (idSource env) (objectIdCounter w))
  /\ Model.CreatedAt (newTodo env w (Wire.Title t)) = now env
  /\ (forall r2 t2,
        Body r2 = DecodeOK t2 -> Wire.Title t2 = Wire.Title t ->
        createTodo env r2 w = createTodo env r w).
Proof.
  intros HB HT. rewrite (createTodo_insert env r w t HB HT).
  unfold mgo.Insert. cbn [mgo.logCall collection storeCalls counted].
  split; [|split; [|split]].
  - destruct (ioFault env) as [err|];
      [|destruct (existsb _ (collection w))];
      eexists; eexists; split; reflexivity.
  - intros -> ->. eexists. split; [reflexivity|].
    cbn [mgo.setCollection collection].
    apply Permutation_sym, Permutation_cons_append.
  - intros w' m. destruct (ioFault env) as [err|];
      [discriminate|destruct (existsb _ (collection w)); [discriminate|]].
    intros H. injection H as <- <-. split; [reflexivity|].
    cbn [mgo.setCollection collection]. apply in_or_app. right. now left.
  - repeat split.
    intros r2 t2 HB2 HT2.
    assert (Wire.Title t2 <> "") as HT2' by congruence.
    rewrite (createTodo_insert env r2 w t2 HB2 HT2'), HT2. reflexivity.
Qed.

Lemma create_takes_only_the_title_witness :
  (exists w',
     createTodo Sample.env
       (Sample.request ""
          (DecodeOK {| Wire.ID := Sample.milkHex; Wire.Title := "feed cat";
                       Wire.Completed := true;
                       Wire.CreatedAt := "1999-12-31 23:59:59" |}))
       Sample.one
     = Returned w' [created (newTodo Sample.env Sample.one "feed cat")]
     /\ Permutation (collection w')
          (mgo.stored (newTodo Sample.env Sample.one "feed cat")
           :: collection Sample.one))
  /\ Model.Completed (newTodo Sample.env Sample.one "feed cat") = false
  /\ createTodo Sample.env
       (Sample.request "" (DecodeOK (Sample.titled "feed cat" false)))
       Sample.one
     = createTodo Sample.env
         (Sample.request ""
            (DecodeOK {| Wire.ID := Sample.milkHex; Wire.Title := "feed cat";
                         Wire.Completed := true;
                         Wire.CreatedAt := "1999-12-31 23:59:59" |}))
         Sample.one.
Proof.
  destruct (create_takes_only_the_title Sample.env
              (Sample.request ""
                 (DecodeOK {| Wire.ID := Sample.milkHex;
                              Wire.Title := "feed cat";
                              Wire.Completed := true;
                              Wire.CreatedAt := "1999-12-31 23:59:59" |}))
              Sample.one
              {| Wire.ID := Sample.milkHex; Wire.Title := "feed cat";
                 Wire.Completed := true;
                 Wire.CreatedAt := "1999-12-31 23:59:59" |}
              eq_refl ltac:(discriminate))
    as (_ & Hok & _ & Hc & _ & _ & _ & Hsame).
  split; [exact (Hok eq_refl eq_refl)|].
  split; [exact Hc|].
  apply (Hsame _ (Sample.titled "feed cat" false)); reflexivity.
Defined.




(** The 201 answer of [createTodo] carries the record [newTodo]. *)
Lemma createTodo_created
    (env : Env) (r : Request) (w w' : World) (m : Model.todoModel) :
  createTodo env r w = Returned w' [created m] ->
  exists title, m = newTodo env w title.
Proof.
  unfold createTodo, newTodo.
  destruct (Body r) as [err|t]; [discriminate|].
  destruct (String.eqb _ _); [discriminate|].
  destruct (bson.NewObjectId _ _) as [id counter]. cbn [fst].
  destruct (mgo.Insert _ _ _) as [[err|] w1]; [discriminate|].
  intros H. injection H as _ <-. now exists (Wire.Title t).
Qed.

(** C1 on the code.  The record in the 201 envelope is the storage
    record, encoded by encoding/json.  Its identifier goes out as 24
    hexadecimal digits that [parseId] takes back to the identifier.  Its
    time goes out under the key [CreatedAt] (there is no [createdAt]) in
    the RFC 3339 form of [time.Time.MarshalJSON], which is never of the
    form YYYY-MM-DD HH:MM:SS. *)
Theorem created_record_on_the_wire
    (env : Env) (r : Request) (w w' : World) (m : Model.todoModel)
    (v : json.Value) :
  time.valid (now env) = true ->
  createTodo env r w = Returned w' [created m] ->
  json.MarshalTodoModel m = Some v ->
  parseId (bson.Hex (Model.ID m)) = Some (Model.ID m)
  /\ exists fields ts,
       v = json.Object fields
       /\ json.field "ID" fields = Some (json.Str (bson.Hex (Model.ID m)))
       /\ json.field "createdAt" fields = None
       /\ json.field "CreatedAt" fields = Some (json.Str ts)
       /\ time.MarshalJSON (now env) = Some ts
       /\ isFixedFormat ts = false.
Proof.
  intros Hv Hc Hm. destruct (createTodo_created env r w w' m Hc) as [title ->].
  split.
  - unfold parseId. cbn [newTodo Model.ID].
    now rewrite IsObjectIdHex_Hex, ObjectIdHex_Hex
      by apply length_NewObjectId.
  - unfold json.MarshalTodoModel in Hm. cbn [newTodo Model.CreatedAt] in Hm.
    destruct (time.MarshalJSON (now env)) as [ts|] eqn:E; [|discriminate].
    injection Hm as <-. eexists; exists ts.
    split; [reflexivity|]. repeat split.
    now apply (MarshalJSON_not_fixed (now env)).
Qed.

Lemma created_record_on_the_wire_witness :
  json.MarshalTodoModel (newTodo Sample.env Sample.empty "buy milk")
  = Some (json.Object
            [("ID", json.Str "65ebbcc46162631092000008");
             ("Title", json.Str "buy milk");
             ("Completed", json.Bool false);
             ("CreatedAt", json.Str "2024-03-09T07:05:00.12+05:30")])
  /\ isFixedFormat "2024-03-09T07:05:00.12+05:30" = false
  /\ isFixedFormat "2024-03-09 07:05:00" = true
  /\ parseId "65ebbcc46162631092000008"
     = Some (Model.ID (newTodo Sample.env Sample.empty "buy milk")).
Proof.
  destruct (created_record_on_the_wire Sample.env
              (Sample.request "" (DecodeOK (Sample.titled "buy milk" true)))
              Sample.empty
              {| collection :=
                   [mgo.stored (newTodo Sample.env Sample.empty "buy milk")];
                 storeCalls :=
                   [CallInsert (newTodo Sample.env Sample.empty "buy milk")];
                 objectIdCounter := 8 |}
              (newTodo Sample.env Sample.empty "buy milk")
              (json.Object
                 [("ID", json.Str "65ebbcc46162631092000008");
                  ("Title", json.Str "buy milk");
                  ("Completed", json.Bool false);
                  ("CreatedAt", json.Str "2024-03-09T07:05:00.12+05:30")])
              eq_refl eq_refl eq_refl)
    as (Hid & fields & ts & Hobj & _ & _ & Hts & _ & Hfmt).
  injection Hobj as <-. injection Hts as <-.
  split; [reflexivity|]. split; [exact Hfmt|].
  split; [reflexivity | exact Hid].
Defined.

(* ------------------------------------------------------------------ *)
(** * Further properties: the paths of the handlers *)

Section Paths.

Variables (env : Env) (r : Request) (w w' : World).
Variable written : list Response.

(** Every way [getAllTodo] ends. *)
Lemma getAllTodo_cases :
  getAllTodo env r w = Returned w' written ->
  w' = mgo.logCall CallFindAll w
  /\ ((exists err, ioFault env = Some err /\ written = [listFailed err])
      \/ (ioFault env = None
          /\ written = [listed (mkSlice (map listedAs (collection w)))])).
Proof.
  unfold getAllTodo, mgo.FindAll. destruct (ioFault env) as [err|].
  - intros H. injection H as <- <-. split; [reflexivity|].
    left. exists err. split; reflexivity.
  - rewrite range_append. intros H. injection H as <- <-.
    split; [reflexivity|]. right. split; reflexivity.
Qed.

(** Every way [createTodo] ends. *)
Lemma createTodo_cases :
  createTodo env r w = Returned w' written ->
  (w' = w
   /\ ((exists err, Body r = DecodeError err
                    /\ written = [JSON http.StatusProcessing (PError err)])
       \/ written = [titleRequired]))
  \/ (exists t,
        Body r = DecodeOK t /\ Wire.Title t <> ""
        /\ storeCalls w'
           = (storeCalls w
              ++ [CallInsert (newTodo env w (Wire.Title t))])%list
        /\ ((exists err, written = [createFailed err]
                         /\ collection w' = collection w)
            \/ (written = [created (newTodo env w (Wire.Title t))]
                /\ ioFault env = None
                /\ existsb (mgo.hasId (Model.ID (newTodo env w (Wire.Title t))))
                     (collection w) = false
                /\ collection w'
                   = (collection w
                      ++ [mgo.stored (newTodo env w (Wire.Title t))])%list))).
Proof.
  unfold createTodo, newTodo. destruct (Body r) as [err|t] eqn:HB.
  - intros H. injection H as <- <-. left. split; [reflexivity|].
    left. exists err. split; reflexivity.
  - destruct (String.eqb (Wire.Title t) "") eqn:HT.
    + intros H. injection H as <- <-. left. split; [reflexivity|].
      right. reflexivity.
    + apply String.eqb_neq in HT.
      destruct (bson.NewObjectId (idSource env) (objectIdCounter w))
        as [id counter].
      cbn [fst]. unfold mgo.Insert. cbn [mgo.logCall collection Model.ID].
      destruct (ioFault env) as [err|].
      * intros H. injection H as <- <-. right. exists t.
        repeat split; [assumption|]. left. exists err. split; reflexivity.
      * destruct (existsb (mgo.hasId id) (collection w)) eqn:E.
        -- intros H. injection H as <- <-. right. exists t.
           repeat split; [assumption|]. left. exists ErrDuplicateKey.
           split; reflexivity.
        -- intros H. injection H as <- <-. right. exists t.
           repeat split; [assumption|]. right. repeat split.
Qed.

(** Every way [deleteTodo] ends. *)
Lemma deleteTodo_cases :
  deleteTodo env r w = Returned w' written ->
  (w' = w /\ written = [invalidId])
  \/ (exists oid,
        bson.IsObjectIdHex (strings.TrimSpace (URLParam_id r)) = true
        /\ bson.ObjectIdHex (strings.TrimSpace (URLParam_id r)) = Some oid
        /\ storeCalls w' = (storeCalls w ++ [CallRemoveId oid])%list
        /\ ((exists err, written = [deleteFailed err]
                         /\ collection w' = collection w)
            \/ (written = [deleted]
                /\ ioFault env = None
                /\ mgo.removeFirst oid (collection w)
                   = Some (collection w')))).
Proof.
  unfold deleteTodo. cbv zeta.
  destruct (bson.IsObjectIdHex _) eqn:Hid; cbn [negb].
  2:{ intros H. injection H as <- <-. left. split; reflexivity. }
  destruct (bson.ObjectIdHex _) as [oid|]; [|discriminate].
  unfold mgo.RemoveId. cbn [mgo.logCall collection].
  destruct (ioFault env) as [err|].
  - intros H. injection H as <- <-. right. exists oid.
    repeat split. left. exists err. split; reflexivity.
  - destruct (mgo.removeFirst oid (collection w)) as [docs|] eqn:E.
    + intros H. injection H as <- <-. right. exists oid.
      repeat split. right. repeat split. exact E.
    + intros H. injection H as <- <-. right. exists oid.
      repeat split. left. exists ErrNotFound. split; reflexivity.
Qed.

(** Every way [updateTodo] ends. *)
Lemma updateTodo_cases :
  updateTodo env r w = Returned w' written ->
  (w' = w
   /\ (written = [invalidId]
       \/ (exists err, Body r = DecodeError err
                       /\ written = [JSON http.StatusProcessing (PError err)])
       \/ written = [titleRequired]))
  \/ (exists oid t,
        bson.ObjectIdHex (strings.TrimSpace (URLParam_id r)) = Some oid
        /\ Body r = DecodeOK t /\ Wire.Title t <> ""
        /\ storeCalls w'
           = (storeCalls w
              ++ [CallUpdate oid (Wire.Title t) (Wire.Completed t)])%list
        /\ ((exists err, written = [updateFailed err]
                         /\ collection w' = collection w)
            \/ (written = []
                /\ ioFault env = None
                /\ mgo.setFirst oid (Wire.Title t) (Wire.Completed t)
                     (collection w)
                   = Some (collection w')))).
Proof.
  unfold updateTodo. cbv zeta.
  destruct (bson.IsObjectIdHex _) eqn:Hid; cbn [negb].
  2:{ intros H. injection H as <- <-. left. split; [reflexivity|].
      left. reflexivity. }
  destruct (Body r) as [err|t] eqn:HB.
  { intros H. injection H as <- <-. left. split; [reflexivity|].
    right. left. exists err. split; reflexivity. }
  destruct (String.eqb (Wire.Title t) "") eqn:HT.
  { intros H. injection H as <- <-. left. split; [reflexivity|].
    right. right. reflexivity. }
  apply String.eqb_neq in HT.
  destruct (bson.ObjectIdHex _) as [oid|]; [|discriminate].
  unfold mgo.Update. cbn [mgo.logCall collection].
  destruct (ioFault env) as [err|].
  - intros H. injection H as <- <-. right. exists oid, t.
    repeat split; [assumption|]. left. exists err. split; reflexivity.
  - destruct (mgo.setFirst _ _ _ _) as [docs|] eqn:E.
    + intros H. injection H as <- <-. right. exists oid, t.
      repeat split; [assumption|]. right. repeat split. exact E.
    + intros H. injection H as <- <-. right. exists oid, t.
      repeat split; [assumption|]. left. exists ErrNotFound.
      split; reflexivity.
Qed.

End Paths.

Lemma setFirst_absent id title completed (docs : list Model.todoModel) :
  existsb (mgo.hasId id) docs = false
  <-> mgo.setFirst id title completed docs = None.
Proof.
  induction docs as [|d docs IH]; cbn [existsb mgo.setFirst]; [tauto|].
  destruct (mgo.hasId id d); cbn [orb].
  - split; discriminate.
  - rewrite IH. destruct (mgo.setFirst id title completed docs); split;
      (discriminate || reflexivity).
Qed.

Lemma In_handlers (h : Handler) :
  In h handlers ->
  h = getAllTodo \/ h = createTodo \/ h = deleteTodo \/ h = updateTodo.
Proof.
  unfold handlers. cbn [In]. intuition auto.
Qed.

(** X1.  Whenever the call on the collection returns an error, whatever
    its cause (a failed round trip, a duplicate key, a missing
    document), the handler answers 400 with its own failure message and
    that error under "error", and does nothing more: it returns in the
    world the call left.  For create, delete and update this is for
    requests that have passed the checks that come before the call. *)
Theorem store_failure_is_answered_400
    (env : Env) (r : Request) (w w1 : World) (err : error) :
  (mgo.FindAll env w = (inl err, w1) ->
   getAllTodo env r w = Returned w1 [listFailed err])
  /\ (forall t,
        Body r = DecodeOK t -> Wire.Title t <> "" ->
        mgo.Insert env (newTodo env w (Wire.Title t)) (counted env w)
        = (Some err, w1) ->
        createTodo env r w = Returned w1 [createFailed err])
  /\ (forall oid,
        bson.IsObjectIdHex (strings.TrimSpace (URLParam_id r)) = true ->
        bson.ObjectIdHex (strings.TrimSpace (URLParam_id r)) = Some oid ->
        (mgo.RemoveId env oid w = (Some err, w1) ->
         deleteTodo env r w = Returned w1 [deleteFailed err])
        /\ (forall t,
              Body r = DecodeOK t -> Wire.Title t <> "" ->
              mgo.Update env oid (Wire.Title t) (Wire.Completed t) w
              = (Some err, w1) ->
              updateTodo env r w = Returned w1 [updateFailed err])).
Proof.
  split; [|split].
  - intros H. unfold getAllTodo. rewrite H. reflexivity.
  - intros t HB HT H.
    rewrite (createTodo_insert env r w t HB HT), H. reflexivity.
  - intros oid Hid Hoid. split.
    + intros H. unfold deleteTodo. cbv zeta. rewrite Hid, Hoid, H.
      reflexivity.
    + intros t HB HT H. apply String.eqb_neq in HT.
      unfold updateTodo. cbv zeta. rewrite Hid, Hoid, HB, HT, H.
      reflexivity.
Qed.

Lemma store_failure_is_answered_400_witness :
  getAllTodo
    {| ioFault := Some (ErrStore "EOF"); idSource := idSource Sample.env;
       now := Sample.clock |}
    (Sample.request Sample.otherHex (DecodeOK (Sample.titled "tea" true)))
    Sample.one
  = Returned (mgo.logCall CallFindAll Sample.one)
      [listFailed (ErrStore "EOF")]
  /\ deleteTodo Sample.env
       (Sample.request Sample.otherHex (DecodeOK (Sample.titled "tea" true)))
       Sample.one
     = Returned (mgo.logCall (CallRemoveId Sample.otherId) Sample.one)
         [deleteFailed ErrNotFound].
Proof.
  split.
  - destruct (store_failure_is_answered_400
                {| ioFault := Some (ErrStore "EOF");
                   idSource := idSource Sample.env; now := Sample.clock |}
                (Sample.request Sample.otherHex
                   (DecodeOK (Sample.titled "tea" true)))
                Sample.one (mgo.logCall CallFindAll Sample.one)
                (ErrStore "EOF")) as (Hlist & _).
    apply Hlist. reflexivity.
  - destruct (store_failure_is_answered_400 Sample.env
                (Sample.request Sample.otherHex
                   (DecodeOK (Sample.titled "tea" true)))
                Sample.one
                (mgo.logCall (CallRemoveId Sample.otherId) Sample.one)
                ErrNotFound) as (_ & _ & Hid).
    destruct (Hid Sample.otherId eq_refl eq_refl) as (Hdelete & _).
    apply Hdelete. reflexivity.
Defined.

(** X2.  An update of a well-formed id that no record of the collection
    has is not a silent success: Update reports [ErrNotFound], and the
    handler answers 400 "Failed to update todo" and leaves the collection
    as it was. *)
Theorem update_of_absent_id_is_refused
    (env : Env) (r : Request) (w : World) (t : Wire.todo)
    (oid : bson.ObjectId) :
  ioFault env = None ->
  bson.IsObjectIdHex (strings.TrimSpace (URLParam_id r)) = true ->
  bson.ObjectIdHex (strings.TrimSpace (URLParam_id r)) = Some oid ->
  Body r = DecodeOK t ->
  Wire.Title t <> "" ->
  existsb (mgo.hasId oid) (collection w) = false ->
  updateTodo env r w
  = Returned
      (mgo.logCall (CallUpdate oid (Wire.Title t) (Wire.Completed t)) w)
      [updateFailed ErrNotFound].
Proof.
  intros Hio Hid Hoid HB HT Habs. apply String.eqb_neq in HT.
  apply (setFirst_absent oid (Wire.Title t) (Wire.Completed t)) in Habs.
  unfold updateTodo, mgo.Update. cbv zeta.
  rewrite Hid, Hoid, HB, HT, Hio. cbn [negb mgo.logCall collection].
  rewrite Habs. reflexivity.
Qed.

Lemma update_of_absent_id_is_refused_witness :
  updateTodo Sample.env
    (Sample.request Sample.otherHex (DecodeOK (Sample.titled "tea" true)))
    Sample.one
  = Returned (mgo.logCall (CallUpdate Sample.otherId "tea" true) Sample.one)
      [updateFailed ErrNotFound].
Proof.
  apply (update_of_absent_id_is_refused Sample.env
           (Sample.request Sample.otherHex
              (DecodeOK (Sample.titled "tea" true)))
           Sample.one (Sample.titled "tea" true) Sample.otherId);
    (reflexivity || discriminate).
Defined.

(** X4.  A handler calls [rnd.JSON] at most once.  It returns without
    any call only on one path: an update that the store applied. *)
Theorem one_answer_per_request
    (h : Handler) (env : Env) (r : Request) (w w' : World)
    (written : list Response) :
  In h handlers ->
  h env r w = Returned w' written ->
  List.length written <= 1
  /\ (written = [] ->
      exists oid t,
        Body r = DecodeOK t
        /\ bson.ObjectIdHex (strings.TrimSpace (URLParam_id r)) = Some oid
        /\ mgo.setFirst oid (Wire.Title t) (Wire.Completed t) (collection w)
           = Some (collection w')).
Proof.
  intros Hh H.
  destruct (In_handlers h Hh) as [-> | [-> | [-> | ->]]].
  - destruct (getAllTodo_cases _ _ _ _ _ H)
      as (_ & [(err & _ & ->) | (_ & ->)]); split;
      (cbn; lia) || discriminate.
  - destruct (createTodo_cases _ _ _ _ _ H)
      as [(_ & [(err & _ & ->) | ->])
         | (t & _ & _ & _ & [(err & -> & _) | (-> & _)])]; split;
      (cbn; lia) || discriminate.
  - destruct (deleteTodo_cases _ _ _ _ _ H)
      as [(_ & ->) | (oid & _ & _ & _ & [(err & -> & _) | (-> & _)])];
      split; (cbn; lia) || discriminate.
  - destruct (updateTodo_cases _ _ _ _ _ H)
      as [(_ & [-> | [(err & _ & ->) | ->]])
         | (oid & t & Hoid & HB & _ & _ & [(err & -> & _) | (-> & _ & Hs)])];
      split; try (cbn; lia); try discriminate.
    intros _. exists oid, t. repeat split; assumption.
Qed.

Lemma one_answer_per_request_witness :
  List.length [deleteFailed ErrNotFound] <= 1.
Proof.
  apply (one_answer_per_request deleteTodo Sample.env
           (Sample.request Sample.otherHex (DecodeError (ErrDecode "EOF")))
           Sample.one
           (mgo.logCall (CallRemoveId Sample.otherId) Sample.one)
           [deleteFailed ErrNotFound]).
  - unfold handlers. cbn [In]. auto.
  - reflexivity.
Defined.

(** X5.  Each handler makes at most one call on the collection, of its
    own kind, and with checked arguments only: [getAllTodo] calls Find,
    always; [createTodo] calls nothing or Insert with a record whose id
    has 12 bytes, whose title is not empty and whose completed is false;
    [deleteTodo] calls nothing or RemoveId with an id of 12 bytes;
    [updateTodo] calls nothing or Update with an id of 12 bytes and a
    title that is not empty. *)
Theorem store_calls_are_checked
    (env : Env) (r : Request) (w w' : World) (written : list Response) :
  (getAllTodo env r w = Returned w' written ->
   storeCalls w' = (storeCalls w ++ [CallFindAll])%list)
  /\ (createTodo env r w = Returned w' written ->
      storeCalls w' = storeCalls w
      \/ exists doc,
           storeCalls w' = (storeCalls w ++ [CallInsert doc])%list
           /\ String.length (Model.ID doc) = 12
           /\ Model.Title doc <> ""
           /\ Model.Completed doc = false)
  /\ (deleteTodo env r w = Returned w' written ->
      storeCalls w' = storeCalls w
      \/ exists oid,
           storeCalls w' = (storeCalls w ++ [CallRemoveId oid])%list
           /\ String.length oid = 12)
  /\ (updateTodo env r w = Returned w' written ->
      storeCalls w' = storeCalls w
      \/ exists oid title completed,
           storeCalls w'
           = (storeCalls w ++ [CallUpdate oid title completed])%list
           /\ String.length oid = 12
           /\ title <> "").
Proof.
  repeat split; intros H.
  - destruct (getAllTodo_cases _ _ _ _ _ H) as (-> & _). reflexivity.
  - destruct (createTodo_cases _ _ _ _ _ H)
      as [(-> & _) | (t & _ & HT & Hc & _)]; [now left|].
    right. exists (newTodo env w (Wire.Title t)).
    repeat split; [exact Hc | apply length_NewObjectId | exact HT].
  - destruct (deleteTodo_cases _ _ _ _ _ H)
      as [(-> & _) | (oid & Hid & Hoid & Hc & _)]; [now left|].
    right. exists oid. split; [exact Hc|].
    destruct (ObjectIdHex_defined _ Hid) as (oid' & Hoid' & L). congruence.
  - destruct (updateTodo_cases _ _ _ _ _ H)
      as [(-> & _) | (oid & t & Hoid & _ & HT & Hc & _)]; [now left|].
    right. exists oid, (Wire.Title t), (Wire.Completed t).
    repeat split; [exact Hc | | exact HT].
    unfold bson.ObjectIdHex in Hoid.
    destruct (hex.DecodeString _) as [d|]; [|discriminate].
    destruct (Nat.eqb (String.length d) 12) eqn:L; [|discriminate].
    injection Hoid as <-. now apply Nat.eqb_eq.
Qed.

Lemma store_calls_are_checked_witness :
  storeCalls (mgo.logCall (CallRemoveId Sample.otherId) Sample.one)
  = storeCalls Sample.one
  \/ exists oid,
       storeCalls (mgo.logCall (CallRemoveId Sample.otherId) Sample.one)
       = (storeCalls Sample.one ++ [CallRemoveId oid])%list
       /\ String.length oid = 12.
Proof.
  apply (store_calls_are_checked Sample.env
           (Sample.request Sample.otherHex (DecodeError (ErrDecode "EOF")))
           Sample.one
           (mgo.logCall (CallRemoveId Sample.otherId) Sample.one)
           [deleteFailed ErrNotFound]).
  reflexivity.
Defined.

(* ------------------------------------------------------------------ *)
(** * Further properties: the invariants of the collection *)

Section Invariants.

Lemma existsb_hasId_In id (docs : list Model.todoModel) :
  existsb (mgo.hasId id) docs = false -> ~ In id (map Model.ID docs).
Proof.
  induction docs as [|d docs IH]; cbn [existsb map In]; [tauto|].
  intros H. apply orb_false_iff in H as [Hd Hrest].
  apply String.eqb_neq in Hd. intros [E | Hin]; [congruence|].
  now apply IH.
Qed.

Lemma removeFirst_In id (docs docs' : list Model.todoModel) :
  mgo.removeFirst id docs = Some docs' ->
  forall d, In d docs' -> In d docs.
Proof.
  revert docs'; induction docs as [|d0 docs IH]; intros docs' H;
    cbn [mgo.removeFirst] in H; [discriminate|].
  destruct (mgo.hasId id d0).
  - injection H as <-. intros d Hd. now right.
  - destruct (mgo.removeFirst id docs) as [rest|]; [|discriminate].
    injection H as <-. intros d [-> | Hd]; [now left|].
    right. now apply (IH rest).
Qed.

Lemma removeFirst_NoDup id (docs docs' : list Model.todoModel) :
  mgo.removeFirst id docs = Some docs' ->
  NoDup (map Model.ID docs) -> NoDup (map Model.ID docs').
Proof.
  revert docs'; induction docs as [|d0 docs IH]; intros docs' H ND;
    cbn [mgo.removeFirst] in H; [discriminate|].
  cbn [map] in ND. apply NoDup_cons_iff in ND as [Hnin ND].
  destruct (mgo.hasId id d0).
  - injection H as <-. exact ND.
  - destruct (mgo.removeFirst id docs) as [rest|] eqn:E; [|discriminate].
    injection H as <-. cbn [map]. constructor; [|now apply IH].
    intros Hin. apply Hnin. apply in_map_iff in Hin as (d & Hd & Hin).
    apply in_map_iff. exists d. split; [exact Hd|].
    now apply (removeFirst_In id docs rest E).
Qed.

Lemma setFirst_ids id title completed (docs docs' : list Model.todoModel) :
  mgo.setFirst id title completed docs = Some docs' ->
  map Model.ID docs' = map Model.ID docs.
Proof.
  revert docs'; induction docs as [|d docs IH]; intros docs' H;
    cbn [mgo.setFirst] in H; [discriminate|].
  destruct (mgo.hasId id d).
  - injection H as <-. reflexivity.
  - destruct (mgo.setFirst id title completed docs) as [rest|];
      [|discriminate].
    injection H as <-. cbn [map]. now rewrite (IH rest).
Qed.

Lemma setFirst_Forall (P : Model.todoModel -> Prop) id title completed
    (docs docs' : list Model.todoModel) :
  (forall d, P d ->
             P {| Model.ID := Model.ID d; Model.Title := title;
                  Model.Completed := completed;
                  Model.CreatedAt := Model.CreatedAt d |}) ->
  mgo.setFirst id title completed docs = Some docs' ->
  Forall P docs -> Forall P docs'.
Proof.
  intros HP. revert docs'; induction docs as [|d docs IH]; intros docs' H F;
    cbn [mgo.setFirst] in H; [discriminate|].
  apply Forall_cons_iff in F as [Pd F].
  destruct (mgo.hasId id d).
  - injection H as <-. constructor; [now apply HP | exact F].
  - destruct (mgo.setFirst id title completed docs) as [rest|];
      [|discriminate].
    injection H as <-. constructor; [exact Pd | now apply IH].
Qed.

Lemma bsonTime_clockOK (t : time.Time) : clockOK t -> clockOK (mgo.bsonTime t).
Proof.
  unfold clockOK. intros [Hv Hy]. split; [|exact Hy].
  apply valid_ranges in Hv. unfold time.valid, mgo.bsonTime.
  cbn [time.Month time.Day time.Hour time.Minute time.Second
       time.Nanosecond].
  rewrite !andb_true_iff, !Z.leb_le, Z.ltb_lt.
  pose proof (Z.div_mod (time.Nanosecond t) 1000000 ltac:(lia)).
  pose proof (Z.mod_pos_bound (time.Nanosecond t) 1000000 ltac:(lia)).
  lia.
Qed.

End Invariants.

Lemma NoDup_snoc {A : Type} (l : list A) (x : A) :
  NoDup l -> ~ In x l -> NoDup (l ++ [x]).
Proof.
  induction l as [|a l IH]; intros ND Hx; cbn [app].
  - constructor; [intros [] | constructor].
  - apply NoDup_cons_iff in ND as [Ha ND]. constructor.
    + rewrite in_app_iff. intros [Hin | [-> | []]]; [tauto|].
      apply Hx. now left.
    + apply IH; [exact ND|]. intros Hin. apply Hx. now right.
Qed.

(** One request keeps the collection well formed. *)
Lemma handler_keeps_wellFormed
    (h : Handler) (env : Env) (r : Request) (w w' : World)
    (written : list Response) :
  In h handlers -> clockOK (now env) -> wellFormed w ->
  h env r w = Returned w' written -> wellFormed w'.
Proof.
  intros Hh Hclock [ND F] H. unfold wellFormed, ids in *.
  destruct (In_handlers h Hh) as [-> | [-> | [-> | ->]]].
  - destruct (getAllTodo_cases _ _ _ _ _ H) as (-> & _). now split.
  - destruct (createTodo_cases _ _ _ _ _ H)
      as [(-> & _)
         | (t & _ & HT & _ & [(err & _ & ->) | (_ & _ & Hnew & ->)])];
      [now split | now split |].
    rewrite map_app. cbn [map mgo.stored Model.ID]. split.
    + apply NoDup_snoc; [exact ND | now apply existsb_hasId_In].
    + apply Forall_app. split; [exact F|]. constructor; [|constructor].
      split; [|split]; cbn [mgo.stored newTodo Model.ID Model.Title
                            Model.CreatedAt].
      * apply length_NewObjectId.
      * exact HT.
      * exact (bsonTime_clockOK _ Hclock).
  - destruct (deleteTodo_cases _ _ _ _ _ H)
      as [(-> & _) | (oid & _ & _ & _ & [(err & _ & ->) | (_ & _ & Hrm)])];
      [now split | now split |].
    split; [now apply (removeFirst_NoDup oid _ _ Hrm)|].
    apply Forall_forall. intros d Hd.
    apply (proj1 (Forall_forall _ _) F). now apply (removeFirst_In oid _ _ Hrm).
  - destruct (updateTodo_cases _ _ _ _ _ H)
      as [(-> & _)
         | (oid & t & _ & _ & HT & _ & [(err & _ & ->) | (_ & _ & Hset)])];
      [now split | now split |].
    split; [now rewrite (setFirst_ids _ _ _ _ _ Hset)|].
    apply (setFirst_Forall recordOK _ _ _ _ _) with (2 := Hset) (3 := F).
    intros d (L & _ & C). split; [exact L | split; [exact HT | exact C]].
Qed.

(** X6.  The data model's invariants hold along every history.  Starting
    from a well-formed collection (records with an identifier of 12
    bytes, a non-empty title and a creation time from the clock, no
    identifier twice), any sequence of requests to the four handlers,
    served with clock readings of a four-digit year, runs to its end
    without a panic and leaves a well-formed collection. *)
Theorem served_worlds_are_wellFormed
    (reqs : list (Handler * Env * Request)) (w : World) :
  Forall (fun q => In (fst (fst q)) handlers
                   /\ clockOK (now (snd (fst q)))) reqs ->
  wellFormed w ->
  exists w', serve reqs w = Some w' /\ wellFormed w'.
Proof.
  intros Hreqs. revert w.
  induction Hreqs as [|[[h env] r] reqs [Hh Hclock] _ IH]; intros w Hw.
  - exists w. split; [reflexivity | exact Hw].
  - cbn [fst snd] in Hh, Hclock. cbn [serve].
    destruct (h env r w) as [w1 written|] eqn:E.
    + apply IH. exact (handler_keeps_wellFormed h env r w w1 written
                         Hh Hclock Hw E).
    + exfalso. destruct (handlers_return env r w) as (Hl & Hc & Hd & Hu).
      destruct (In_handlers h Hh) as [-> | [-> | [-> | ->]]]; contradiction.
Qed.

Lemma served_worlds_are_wellFormed_witness :
  exists w',
    serve
      [(createTodo, Sample.env,
        Sample.request "" (DecodeOK (Sample.titled "buy milk" false)));
       (updateTodo, Sample.env,
        Sample.request "65ebbcc46162631092000008"
          (DecodeOK (Sample.titled "buy oat milk" true)));
       (getAllTodo, Sample.env,
        Sample.request "" (DecodeError (ErrDecode "EOF")));
       (deleteTodo, Sample.env,
        Sample.request "65ebbcc46162631092000008"
          (DecodeError (ErrDecode "EOF")))]
      Sample.empty
    = Some w'
    /\ wellFormed w'.
Proof.
  apply served_worlds_are_wellFormed.
  - assert (clockOK Sample.clock) as C
      by (split; [reflexivity | cbn; lia]).
    repeat (apply Forall_cons;
            [split; [unfold handlers; cbn [fst In]; auto 6 | exact C]|]).
    apply Forall_nil.
  - split; constructor.
Defined.

Lemma Hex_injective (a b : bson.ObjectId) : bson.Hex a = bson.Hex b -> a = b.
Proof.
  intros H. apply (f_equal hex.DecodeString) in H. unfold bson.Hex in H.
  rewrite !DecodeString_EncodeToString in H. now injection H.
Qed.

Lemma listedAs_toWire (docs : list Model.todoModel) :
  Forall (fun m => clockOK (Model.CreatedAt m)) docs ->
  map listedAs docs = map toWire docs.
Proof.
  induction 1 as [|m docs [Hv Hy] _ IH]; [reflexivity|].
  cbn [map]. rewrite IH. unfold listedAs at 1, toWire at 1.
  now rewrite (Format_fixed _ Hv Hy).
Qed.

(** X7.  What a client reads in the list of a well-formed collection:
    one wire record per stored record; every id is a string that
    [bson.IsObjectIdHex] accepts and no id occurs twice; no title is
    empty; every createdAt has the form YYYY-MM-DD HH:MM:SS. *)
Theorem list_of_wellFormed_collection
    (env : Env) (r : Request) (w : World) :
  ioFault env = None ->
  wellFormed w ->
  exists l,
    getAllTodo env r w
    = Returned (mgo.logCall CallFindAll w) [listed (mkSlice l)]
    /\ List.length l = List.length (collection w)
    /\ NoDup (map Wire.ID l)
    /\ Forall (fun t => bson.IsObjectIdHex (Wire.ID t) = true
                        /\ Wire.Title t <> ""
                        /\ isFixedFormat (Wire.CreatedAt t) = true) l.
Proof.
  intros Hio [ND F]. exists (map toWire (collection w)).
  assert (Forall (fun m => clockOK (Model.CreatedAt m)) (collection w)) as FC.
  { apply Forall_forall. intros m Hm.
    now destruct (proj1 (Forall_forall _ _) F m Hm) as (_ & _ & C). }
  split; [|split; [|split]].
  - rewrite (getAllTodo_ok env r w Hio).
    fold (map listedAs (collection w)).
    change (fun t : Model.todoModel => _) with listedAs.
    now rewrite (listedAs_toWire _ FC).
  - apply length_map.
  - unfold ids in ND. clear F FC.
    induction (collection w) as [|d docs IH]; [constructor|].
    cbn [map] in *. apply NoDup_cons_iff in ND as [Hd ND].
    constructor; [|now apply IH].
    intros Hin. apply Hd. apply in_map_iff in Hin as (t & Ht & Hin).
    apply in_map_iff in Hin as (d' & <- & Hin).
    cbn [toWire Wire.ID] in Ht. apply Hex_injective in Ht.
    apply in_map_iff. now exists d'.
  - apply Forall_forall. intros t Ht.
    apply in_map_iff in Ht as (m & <- & Hm).
    destruct (proj1 (Forall_forall _ _) F m Hm) as (L & T & Hv & Hy).
    cbn [toWire Wire.ID Wire.Title Wire.CreatedAt]. repeat split.
    + now apply IsObjectIdHex_Hex.
    + exact T.
    + now apply isFixedFormat_fixedFormat.
Qed.

Lemma list_of_wellFormed_collection_witness :
  exists l,
    getAllTodo Sample.env (Sample.request "" (DecodeError (ErrDecode "EOF")))
      Sample.one
    = Returned (mgo.logCall CallFindAll Sample.one) [listed (mkSlice l)]
    /\ List.length l = List.length (collection Sample.one)
    /\ NoDup (map Wire.ID l)
    /\ Forall (fun t => bson.IsObjectIdHex (Wire.ID t) = true
                        /\ Wire.Title t <> ""
                        /\ isFixedFormat (Wire.CreatedAt t) = true) l.
Proof.
  apply list_of_wellFormed_collection; [reflexivity|].
  split.
  - repeat constructor. intros [].
  - repeat constructor; cbn; (discriminate || lia).
Defined.

(* ------------------------------------------------------------------ *)
(** * Further properties: identifiers in the path *)

Section PathIds.

Lemma forallS_app (p : ascii -> bool) (a b : string) :
  forallS p (a ++ b) = forallS p a && forallS p b.
Proof.
  induction a as [|c a IH]; [reflexivity|].
  cbn [String.append forallS]. now rewrite IH, andb_assoc.
Qed.

Lemma forallS_rev_string (p : ascii -> bool) (acc s : string) :
  forallS p (rev_string acc s) = forallS p s && forallS p acc.
Proof.
  revert acc; induction s as [|c s IH]; intros acc; [reflexivity|].
  cbn [rev_string forallS]. rewrite IH. cbn [forallS].
  destruct (p c), (forallS p s), (forallS p acc); reflexivity.
Qed.

Lemma forallS_reverse (p : ascii -> bool) (s : string) :
  forallS p (reverse s) = forallS p s.
Proof.
  unfold reverse. rewrite forallS_rev_string. cbn [forallS].
  apply andb_true_r.
Qed.

Lemma rev_string_app (acc a b : string) :
  rev_string acc (a ++ b) = rev_string (rev_string acc a) b.
Proof.
  revert acc; induction a as [|c a IH]; intros acc; [reflexivity|].
  cbn [String.append rev_string]. apply IH.
Qed.

Lemma rev_string_acc (acc s : string) :
  rev_string acc s = reverse s ++ acc.
Proof.
  unfold reverse. revert acc; induction s as [|c s IH]; intros acc;
    [reflexivity|].
  cbn [rev_string]. rewrite IH, (IH (String c "")), append_assoc.
  reflexivity.
Qed.

Lemma reverse_app (a b : string) :
  reverse (a ++ b) = reverse b ++ reverse a.
Proof.
  unfold reverse at 1. rewrite rev_string_app. apply rev_string_acc.
Qed.

Lemma isHexDigit_graphic (c : ascii) :
  isHexDigit c = true -> graphic c = true.
Proof.
  unfold isHexDigit, graphic.
  rewrite !orb_true_iff, !andb_true_iff, !N.leb_le. lia.
Qed.

Lemma forallS_startsGraphic (s : string) :
  forallS isHexDigit s = true -> s <> "" -> startsGraphic s = true.
Proof.
  destruct s as [|c s]; [congruence|]. cbn [forallS startsGraphic].
  intros H _. apply andb_true_iff in H as [Hc _].
  now apply isHexDigit_graphic.
Qed.

Lemma fromHexChar_isHexDigit (c : ascii) :
  isSome (hex.fromHexChar c) = isHexDigit c.
Proof.
  unfold hex.fromHexChar, isHexDigit, isSome. cbv zeta.
  destruct ((48 <=? byteN c)%N && (byteN c <=? 57)%N); [reflexivity|].
  destruct ((97 <=? byteN c)%N && (byteN c <=? 102)%N); [reflexivity|].
  destruct ((65 <=? byteN c)%N && (byteN c <=? 70)%N); reflexivity.
Qed.

(** What [hex.DecodeString] accepts: an even number of hexadecimal
    digits.  Stated for a string and for the string with one more byte,
    as the function goes two bytes at a time. *)
Lemma DecodeString_accepts (s : string) :
  isSome (hex.DecodeString s)
  = Nat.even (String.length s) && forallS isHexDigit s
  /\ forall c,
       isSome (hex.DecodeString (String c s))
       = Nat.even (S (String.length s))
         && (isHexDigit c && forallS isHexDigit s).
Proof.
  induction s as [|q s [IH1 IH2]]; split.
  - reflexivity.
  - intros c. reflexivity.
  - exact (IH2 q).
  - intros c. cbn [hex.DecodeString String.length forallS Nat.even].
    rewrite <- (fromHexChar_isHexDigit c), <- (fromHexChar_isHexDigit q).
    destruct (hex.fromHexChar c); cbn [isSome andb];
      [|now rewrite andb_false_r].
    destruct (hex.fromHexChar q); cbn [isSome andb];
      [|now rewrite andb_false_r].
    rewrite <- IH1. destruct (hex.DecodeString s); reflexivity.
Qed.

Lemma IsObjectIdHex_digits (s : string) :
  bson.IsObjectIdHex s
  = Nat.eqb (String.length s) 24 && forallS isHexDigit s.
Proof.
  unfold bson.IsObjectIdHex.
  destruct (Nat.eqb (String.length s) 24) eqn:L; cbn [negb andb];
    [|reflexivity].
  change (match hex.DecodeString s with Some _ => true | None => false end)
    with (isSome (hex.DecodeString s)).
  rewrite (proj1 (DecodeString_accepts s)).
  apply Nat.eqb_eq in L. rewrite L. reflexivity.
Qed.

(** X8.  The path ids that pass the check of [deleteTodo] and
    [updateTodo] are exactly the strings of 24 hexadecimal digits, in
    either case of the letters; and for exactly those [bson.ObjectIdHex]
    gives an identifier. *)
Theorem IsObjectIdHex_is_24_hex_digits (s : string) :
  (bson.IsObjectIdHex s = true
   <-> String.length s = 24 /\ forallS isHexDigit s = true)
  /\ (bson.IsObjectIdHex s = true <-> bson.ObjectIdHex s <> None).
Proof.
  split.
  - rewrite IsObjectIdHex_digits, andb_true_iff, Nat.eqb_eq. reflexivity.
  - split.
    + intros H. destruct (ObjectIdHex_defined s H) as (oid & -> & _).
      discriminate.
    + unfold bson.ObjectIdHex, bson.IsObjectIdHex. intros H.
      destruct (hex.DecodeString s) as [d|] eqn:E; [|congruence].
      destruct (Nat.eqb (String.length d) 12) eqn:L; [|congruence].
      apply Nat.eqb_eq in L.
      rewrite (proj1 (length_DecodeString s) d E), L. reflexivity.
Qed.

End PathIds.

Section Padding.

Lemma trimLeftSpace_stop (fuel : nat) (s : string) :
  strings.spaceWidth s = 0 -> strings.trimLeftSpace fuel s = s.
Proof.
  intros H. destruct fuel; [reflexivity|].
  cbn [strings.trimLeftSpace]. now rewrite H.
Qed.

Lemma trimLastSpace_stop (fuel : nat) (rs : string) :
  strings.spaceWidthLast rs = 0 -> strings.trimLastSpace fuel rs = rs.
Proof.
  intros H. destruct fuel; [reflexivity|].
  cbn [strings.trimLastSpace]. now rewrite H.
Qed.

Lemma trimLeftSpace_pad (pad t : string) (fuel : nat) :
  forallS strings.asciiSpace pad = true ->
  String.length pad <= fuel ->
  strings.trimLeftSpace fuel (pad ++ t)
  = strings.trimLeftSpace (fuel - String.length pad) t.
Proof.
  revert fuel; induction pad as [|c pad IH]; intros fuel Hp Hf.
  - cbn [String.append String.length]. now rewrite Nat.sub_0_r.
  - cbn [forallS] in Hp. apply andb_true_iff in Hp as [Hc Hp].
    cbn [String.length] in Hf.
    destruct fuel as [|fuel]; [lia|].
    cbn [String.append strings.trimLeftSpace strings.spaceWidth
         String.length Nat.sub].
    rewrite Hc. cbn [drop]. apply IH; [exact Hp | lia].
Qed.

Lemma trimLastSpace_pad (pad t : string) (fuel : nat) :
  forallS strings.asciiSpace pad = true ->
  String.length pad <= fuel ->
  strings.trimLastSpace fuel (pad ++ t)
  = strings.trimLastSpace (fuel - String.length pad) t.
Proof.
  revert fuel; induction pad as [|c pad IH]; intros fuel Hp Hf.
  - cbn [String.append String.length]. now rewrite Nat.sub_0_r.
  - cbn [forallS] in Hp. apply andb_true_iff in Hp as [Hc Hp].
    cbn [String.length] in Hf.
    destruct fuel as [|fuel]; [lia|].
    cbn [String.append strings.trimLastSpace strings.spaceWidthLast
         String.length Nat.sub].
    rewrite Hc. cbn [drop]. apply IH; [exact Hp | lia].
Qed.

Lemma startsGraphic_app (s t : string) :
  startsGraphic s = true -> startsGraphic (s ++ t) = true.
Proof. destruct s; [discriminate | exact (fun H => H)]. Qed.

(** ASCII white space around a string that starts and ends with a
    printing character is what [TrimSpace] removes, and all it removes. *)
Lemma TrimSpace_padded (pad1 s pad2 : string) :
  forallS strings.asciiSpace pad1 = true ->
  forallS strings.asciiSpace pad2 = true ->
  startsGraphic s = true -> startsGraphic (reverse s) = true ->
  strings.TrimSpace (pad1 ++ s ++ pad2) = s.
Proof.
  intros H1 H2 Hs Hr. unfold strings.TrimSpace. cbv zeta.
  rewrite (trimLeftSpace_pad pad1 (s ++ pad2) _ H1)
    by (rewrite length_app; lia).
  rewrite trimLeftSpace_stop
    by (apply spaceWidth_graphic, startsGraphic_app, Hs).
  rewrite reverse_app.
  rewrite (trimLastSpace_pad (reverse pad2) (reverse s))
    by (rewrite ?forallS_reverse, ?length_reverse, ?length_app;
        (assumption || lia)).
  rewrite trimLastSpace_stop by (apply spaceWidthLast_graphic, Hr).
  apply reverse_involutive.
Qed.

Lemma hexId_graphic (s : string) :
  bson.IsObjectIdHex s = true ->
  startsGraphic s = true /\ startsGraphic (reverse s) = true.
Proof.
  rewrite IsObjectIdHex_digits.
  intros H. apply andb_true_iff in H as [L F]. apply Nat.eqb_eq in L.
  split; apply forallS_startsGraphic.
  - exact F.
  - intros ->. discriminate L.
  - now rewrite forallS_reverse.
  - intros E. apply (f_equal String.length) in E.
    rewrite length_reverse, L in E. discriminate E.
Qed.

End Padding.

(** X9.  A well-formed id padded with ASCII white space (tab, new line,
    vertical tab, form feed, carriage return, space) on either side is
    the same request as the bare id to [deleteTodo] and to [updateTodo]:
    same outcome, same answer. *)
Theorem padded_id_is_the_bare_id
    (env : Env) (w : World) (b : Decoded) (s pad1 pad2 : string) :
  bson.IsObjectIdHex s = true ->
  forallS strings.asciiSpace pad1 = true ->
  forallS strings.asciiSpace pad2 = true ->
  deleteTodo env {| URLParam_id := pad1 ++ s ++ pad2; Body := b |} w
  = deleteTodo env {| URLParam_id := s; Body := b |} w
  /\ updateTodo env {| URLParam_id := pad1 ++ s ++ pad2; Body := b |} w
     = updateTodo env {| URLParam_id := s; Body := b |} w.
Proof.
  intros Hs H1 H2. destruct (hexId_graphic s Hs) as [Hg Hr].
  unfold deleteTodo, updateTodo. cbn [URLParam_id Body].
  rewrite (TrimSpace_padded pad1 s pad2 H1 H2 Hg Hr).
  rewrite (TrimSpace_graphic s Hg Hr). split; reflexivity.
Qed.

Lemma padded_id_is_the_bare_id_witness :
  deleteTodo Sample.env
    {| URLParam_id := "  " ++ Sample.milkHex ++ " ";
       Body := DecodeError (ErrDecode "EOF") |} Sample.one
  = deleteTodo Sample.env
      {| URLParam_id := Sample.milkHex;
         Body := DecodeError (ErrDecode "EOF") |} Sample.one.
Proof.
  apply (padded_id_is_the_bare_id Sample.env Sample.one
           (DecodeError (ErrDecode "EOF")) Sample.milkHex "  " " ");
    reflexivity.
Defined.

Section LetterCase.

Lemma fromHexChar_lowerHex (c : ascii) :
  hex.fromHexChar (lowerHex c) = hex.fromHexChar c.
Proof. destruct c as [[] [] [] [] [] [] [] []]; reflexivity. Qed.

Lemma fromHexChar_tableAt (c : ascii) (a : N) :
  hex.fromHexChar c = Some a -> (a < 16)%N /\ hex.tableAt a = lowerHex c.
Proof.
  destruct c as [[] [] [] [] [] [] [] []]; intros H;
    (discriminate H || (injection H as <-; split; reflexivity)).
Qed.

Lemma nibbles (a b : N) :
  (a < 16)%N -> (b < 16)%N ->
  N.shiftr (byteN (ascii_of_N (N.lor (N.shiftl a 4) b))) 4 = a
  /\ N.land (byteN (ascii_of_N (N.lor (N.shiftl a 4) b))) 15 = b.
Proof.
  intros Ha Hb.
  assert (a = 0 \/ a = 1 \/ a = 2 \/ a = 3 \/ a = 4 \/ a = 5 \/ a = 6
          \/ a = 7 \/ a = 8 \/ a = 9 \/ a = 10 \/ a = 11 \/ a = 12
          \/ a = 13 \/ a = 14 \/ a = 15)%N as Ea by lia.
  assert (b = 0 \/ b = 1 \/ b = 2 \/ b = 3 \/ b = 4 \/ b = 5 \/ b = 6
          \/ b = 7 \/ b = 8 \/ b = 9 \/ b = 10 \/ b = 11 \/ b = 12
          \/ b = 13 \/ b = 14 \/ b = 15)%N as Eb by lia.
  clear Ha Hb.
  repeat (destruct Ea as [-> | Ea]); try subst a;
    repeat (destruct Eb as [-> | Eb]); try subst b;
    split; reflexivity.
Qed.

(** Decoding does not see the case of the letters. *)
Lemma DecodeString_lowerHex (s : string) :
  hex.DecodeString (mapS lowerHex s) = hex.DecodeString s
  /\ forall c,
       hex.DecodeString (mapS lowerHex (String c s))
       = hex.DecodeString (String c s).
Proof.
  induction s as [|q s [IH1 IH2]]; split.
  - reflexivity.
  - reflexivity.
  - exact (IH2 q).
  - intros c. cbn [mapS hex.DecodeString].
    rewrite !fromHexChar_lowerHex. now rewrite IH1.
Qed.

(** Encoding what was decoded gives the digits back, letters in lower
    case. *)
Lemma EncodeToString_DecodeString (s : string) :
  (forall d, hex.DecodeString s = Some d ->
             hex.EncodeToString d = mapS lowerHex s)
  /\ (forall c d, hex.DecodeString (String c s) = Some d ->
                  hex.EncodeToString d = mapS lowerHex (String c s)).
Proof.
  induction s as [|q s [IH1 IH2]]; split.
  - intros d H. injection H as <-. reflexivity.
  - intros c d H. discriminate H.
  - exact (IH2 q).
  - intros c d H. cbn [hex.DecodeString] in H.
    destruct (hex.fromHexChar c) as [a|] eqn:Ec; [|discriminate].
    destruct (hex.fromHexChar q) as [b|] eqn:Eq; [|discriminate].
    destruct (hex.DecodeString s) as [d'|] eqn:E; [|discriminate].
    injection H as <-.
    destruct (fromHexChar_tableAt c a Ec) as [La Ta].
    destruct (fromHexChar_tableAt q b Eq) as [Lb Tb].
    destruct (nibbles a b La Lb) as [Hhi Hlo].
    cbn [hex.EncodeToString mapS]. rewrite Hhi, Hlo, Ta, Tb.
    now rewrite (IH1 d' eq_refl).
Qed.

End LetterCase.

(** X10.  Identifiers do not depend on the case of the hexadecimal
    letters: a path id and its lower-case form decode to the same
    identifier, so they are the same request to [deleteTodo] and
    [updateTodo]; and the hexadecimal form of the decoded identifier,
    which is what the list shows, is the lower-case form of the path
    id. *)
Theorem id_letters_in_either_case
    (env : Env) (w : World) (b : Decoded) (s : string) :
  bson.IsObjectIdHex s = true ->
  bson.ObjectIdHex (mapS lowerHex s) = bson.ObjectIdHex s
  /\ (forall oid, bson.ObjectIdHex s = Some oid ->
                  bson.Hex oid = mapS lowerHex s)
  /\ deleteTodo env {| URLParam_id := mapS lowerHex s; Body := b |} w
     = deleteTodo env {| URLParam_id := s; Body := b |} w
  /\ updateTodo env {| URLParam_id := mapS lowerHex s; Body := b |} w
     = updateTodo env {| URLParam_id := s; Body := b |} w.
Proof.
  intros Hs.
  assert (bson.ObjectIdHex (mapS lowerHex s) = bson.ObjectIdHex s) as EO.
  { unfold bson.ObjectIdHex.
    now rewrite (proj1 (DecodeString_lowerHex s)). }
  assert (bson.IsObjectIdHex (mapS lowerHex s) = true) as Hl.
  { unfold bson.IsObjectIdHex in *.
    rewrite (proj1 (DecodeString_lowerHex s)).
    replace (String.length (mapS lowerHex s)) with (String.length s);
      [exact Hs|].
    clear. induction s as [|c s IH]; cbn; [reflexivity | now rewrite IH]. }
  split; [exact EO|]. split.
  - intros oid H. unfold bson.ObjectIdHex, bson.Hex in *.
    destruct (hex.DecodeString s) as [d|] eqn:E; [|discriminate].
    destruct (Nat.eqb (String.length d) 12); [|discriminate].
    injection H as <-. exact (proj1 (EncodeToString_DecodeString s) d E).
  - destruct (hexId_graphic s Hs) as [Hg Hr].
    destruct (hexId_graphic _ Hl) as [Hg' Hr'].
    unfold deleteTodo, updateTodo. cbn [URLParam_id Body].
    rewrite (TrimSpace_graphic s Hg Hr), (TrimSpace_graphic _ Hg' Hr').
    rewrite Hs, Hl, EO. split; reflexivity.
Qed.

Lemma id_letters_in_either_case_witness :
  bson.ObjectIdHex "6d696c6b6d696c6b6d696c6b"
  = bson.ObjectIdHex "6D696C6B6d696c6b6D696C6B"
  /\ deleteTodo Sample.env
       {| URLParam_id := "6d696c6b6d696c6b6d696c6b";
          Body := DecodeError (ErrDecode "EOF") |} Sample.one
     = deleteTodo Sample.env
         {| URLParam_id := "6D696C6B6d696c6b6D696C6B";
            Body := DecodeError (ErrDecode "EOF") |} Sample.one.
Proof.
  destruct (id_letters_in_either_case Sample.env Sample.one
              (DecodeError (ErrDecode "EOF")) "6D696C6B6d696c6b6D696C6B"
              eq_refl) as (H1 & _ & H2 & _).
  split; [exact H1 | exact H2].
Defined.

(* ------------------------------------------------------------------ *)
(** * Further properties: requests one after the other *)

Section Sequences.

(** The layout of the list has no element below the second: what BSON
    drops of a time does not show. *)
Lemma Format_bsonTime (t : time.Time) :
  time.Format (mgo.bsonTime t) "2006-01-02 15:04:05"
  = time.Format t "2006-01-02 15:04:05".
Proof.
  unfold time.Format. change (String.length "2006-01-02 15:04:05") with 19.
  rewrite chunks_fixed. reflexivity.
Qed.

Lemma listedAs_stored (m : Model.todoModel) :
  listedAs (mgo.stored m) = listedAs m.
Proof.
  unfold listedAs, mgo.stored.
  cbn [Model.ID Model.Title Model.Completed Model.CreatedAt].
  now rewrite Format_bsonTime.
Qed.

Lemma removeFirst_snoc id (docs : list Model.todoModel) (d : Model.todoModel) :
  existsb (mgo.hasId id) docs = false -> Model.ID d = id ->
  mgo.removeFirst id (docs ++ [d]) = Some docs.
Proof.
  intros Habs Hd. induction docs as [|d0 docs IH]; cbn [app mgo.removeFirst].
  - unfold mgo.hasId. rewrite Hd, String.eqb_refl. reflexivity.
  - cbn [existsb] in Habs. apply orb_false_iff in Habs as [H0 Hrest].
    rewrite H0, (IH Hrest). reflexivity.
Qed.

Lemma setFirst_again id title completed (docs docs' : list Model.todoModel) :
  mgo.setFirst id title completed docs = Some docs' ->
  mgo.setFirst id title completed docs' = Some docs'.
Proof.
  revert docs'; induction docs as [|d docs IH]; intros docs' H;
    cbn [mgo.setFirst] in H; [discriminate|].
  destruct (mgo.hasId id d) eqn:E.
  - injection H as <-. cbn [mgo.setFirst]. unfold mgo.hasId in *.
    cbn [Model.ID Model.CreatedAt]. rewrite E. reflexivity.
  - destruct (mgo.setFirst id title completed docs) as [rest|];
      [|discriminate].
    injection H as <-. cbn [mgo.setFirst]. rewrite E, (IH rest eq_refl).
    reflexivity.
Qed.

Lemma filter_absent id (docs : list Model.todoModel) :
  existsb (mgo.hasId id) docs = false ->
  filter (fun d => negb (mgo.hasId id d)) docs = docs.
Proof.
  induction docs as [|d docs IH]; cbn [existsb filter]; [reflexivity|].
  intros H. apply orb_false_iff in H as [Hd Hrest].
  rewrite Hd, (IH Hrest). reflexivity.
Qed.

Lemma In_existsb_hasId id (docs : list Model.todoModel) :
  ~ In id (map Model.ID docs) -> existsb (mgo.hasId id) docs = false.
Proof.
  induction docs as [|d docs IH]; cbn [existsb map In]; [reflexivity|].
  intros H. apply orb_false_iff. split.
  - apply String.eqb_neq. intros E. apply H. now left.
  - apply IH. intros Hin. apply H. now right.
Qed.

Lemma removeFirst_filter id (docs docs' : list Model.todoModel) :
  NoDup (map Model.ID docs) ->
  mgo.removeFirst id docs = Some docs' ->
  docs' = filter (fun d => negb (mgo.hasId id d)) docs.
Proof.
  revert docs'; induction docs as [|d docs IH]; intros docs' ND H;
    cbn [mgo.removeFirst] in H; [discriminate|].
  cbn [map] in ND. apply NoDup_cons_iff in ND as [Hd ND].
  cbn [filter]. destruct (mgo.hasId id d) eqn:E; cbn [negb].
  - injection H as <-. symmetry. apply filter_absent.
    apply In_existsb_hasId. apply String.eqb_eq in E. now rewrite <- E.
  - destruct (mgo.removeFirst id docs) as [rest|]; [|discriminate].
    injection H as <-. now rewrite <- (IH rest ND eq_refl).
Qed.

Lemma existsb_filter id (docs : list Model.todoModel) :
  existsb (mgo.hasId id)
    (filter (fun d => negb (mgo.hasId id d)) docs) = false.
Proof.
  induction docs as [|d docs IH]; [reflexivity|].
  cbn [filter]. destruct (mgo.hasId id d) eqn:E; cbn [negb existsb];
    [exact IH | now rewrite E, IH].
Qed.

End Sequences.

(** X11.  A list after a successful create shows, in the order the
    store gives, the records that the list before would have shown and
    one more: the record of the 201 answer, with its id in hexadecimal,
    its title, completed false and the creation time to the second. *)
Theorem create_then_list
    (env1 env2 : Env) (r1 r2 : Request) (w w1 : World)
    (m : Model.todoModel) :
  createTodo env1 r1 w = Returned w1 [created m] ->
  ioFault env2 = None ->
  exists l,
    getAllTodo env2 r2 w1
    = Returned (mgo.logCall CallFindAll w1) [listed (mkSlice l)]
    /\ Permutation l (listedAs m :: map listedAs (collection w))
    /\ Wire.Completed (listedAs m) = false
    /\ Wire.CreatedAt (listedAs m)
       = time.Format (now env1) "2006-01-02 15:04:05".
Proof.
  intros Hc Hio.
  destruct (createTodo_cases _ _ _ _ _ Hc)
    as [(_ & [(err & _ & Hw) | Hw])
       | (t & _ & _ & _ & [(err & Hw & _) | (Hw & _ & _ & Hcoll)])];
    try discriminate Hw.
  injection Hw as ->.
  exists (map listedAs (collection w1)). split; [|split; [|split]].
  - rewrite (getAllTodo_ok env2 r2 w1 Hio). reflexivity.
  - rewrite Hcoll, map_app. cbn [map]. rewrite listedAs_stored.
    apply Permutation_sym, Permutation_cons_append.
  - reflexivity.
  - reflexivity.
Qed.

Lemma create_then_list_witness :
  exists l,
    getAllTodo Sample.env (Sample.request "" (DecodeError (ErrDecode "EOF")))
      {| collection :=
           [Sample.milk; mgo.stored (newTodo Sample.env Sample.one "tea")];
         storeCalls := [CallInsert (newTodo Sample.env Sample.one "tea")];
         objectIdCounter := 8 |}
    = Returned
        (mgo.logCall CallFindAll
           {| collection :=
                [Sample.milk;
                 mgo.stored (newTodo Sample.env Sample.one "tea")];
              storeCalls :=
                [CallInsert (newTodo Sample.env Sample.one "tea")];
              objectIdCounter := 8 |})
        [listed (mkSlice l)]
    /\ Permutation l
         (listedAs (newTodo Sample.env Sample.one "tea")
          :: map listedAs (collection Sample.one))
    /\ Wire.Completed (listedAs (newTodo Sample.env Sample.one "tea"))
       = false
    /\ Wire.CreatedAt (listedAs (newTodo Sample.env Sample.one "tea"))
       = time.Format (now Sample.env) "2006-01-02 15:04:05".
Proof.
  apply (create_then_list Sample.env Sample.env
           (Sample.request "" (DecodeOK (Sample.titled "tea" true)))
           (Sample.request "" (DecodeError (ErrDecode "EOF")))
           Sample.one); reflexivity.
Defined.

(** X12.  Deleting the record just created, by the id of the 201 answer
    in its hexadecimal form, is answered 200 and leaves the collection
    exactly as it was before the create. *)
Theorem create_then_delete
    (env1 env2 : Env) (r1 r2 : Request) (w w1 : World)
    (m : Model.todoModel) :
  createTodo env1 r1 w = Returned w1 [created m] ->
  ioFault env2 = None ->
  URLParam_id r2 = bson.Hex (Model.ID m) ->
  exists w2,
    deleteTodo env2 r2 w1 = Returned w2 [deleted]
    /\ collection w2 = collection w.
Proof.
  intros Hc Hio Hid.
  destruct (createTodo_cases _ _ _ _ _ Hc)
    as [(_ & [(err & _ & Hw) | Hw])
       | (t & _ & _ & _ & [(err & Hw & _) | (Hw & _ & Habs & Hcoll)])];
    try discriminate Hw.
  injection Hw as ->.
  assert (String.length (Model.ID (newTodo env1 w (Wire.Title t))) = 12)
    as L by apply length_NewObjectId.
  pose proof (IsObjectIdHex_Hex _ L) as Hhex.
  destruct (hexId_graphic _ Hhex) as [Hg Hr].
  unfold deleteTodo, mgo.RemoveId. cbv zeta.
  rewrite Hid, (TrimSpace_graphic _ Hg Hr), Hhex, (ObjectIdHex_Hex _ L), Hio.
  cbn [negb mgo.logCall collection]. rewrite Hcoll.
  rewrite (removeFirst_snoc _ _ _ Habs) by reflexivity.
  eexists. split; reflexivity.
Qed.

Lemma create_then_delete_witness :
  exists w2,
    deleteTodo Sample.env
      (Sample.request "65ebbcc46162631092000008"
         (DecodeError (ErrDecode "EOF")))
      {| collection :=
           [Sample.milk; mgo.stored (newTodo Sample.env Sample.one "tea")];
         storeCalls := [CallInsert (newTodo Sample.env Sample.one "tea")];
         objectIdCounter := 8 |}
    = Returned w2 [deleted]
    /\ collection w2 = collection Sample.one.
Proof.
  apply (create_then_delete Sample.env Sample.env
           (Sample.request "" (DecodeOK (Sample.titled "tea" true)))
           (Sample.request "65ebbcc46162631092000008"
              (DecodeError (ErrDecode "EOF")))
           Sample.one _ (newTodo Sample.env Sample.one "tea"));
    reflexivity.
Defined.

(** X13.  An update is idempotent: after an update that succeeded, the
    same request again succeeds again and leaves the collection as the
    first one left it. *)
Theorem update_twice_is_update_once
    (env : Env) (r : Request) (w w1 : World) :
  updateTodo env r w = Returned w1 [] ->
  exists w2,
    updateTodo env r w1 = Returned w2 []
    /\ collection w2 = collection w1.
Proof.
  unfold updateTodo. cbv zeta.
  destruct (negb _); [discriminate|].
  destruct (Body r) as [err|t]; [discriminate|].
  destruct (String.eqb _ _); [discriminate|].
  destruct (bson.ObjectIdHex _) as [oid|]; [|discriminate].
  unfold mgo.Update. destruct (ioFault env); [discriminate|].
  cbn [mgo.logCall collection].
  destruct (mgo.setFirst _ _ _ (collection w)) as [docs|] eqn:E;
    [|discriminate].
  intros H. injection H as <-. cbn [mgo.setCollection collection].
  rewrite (setFirst_again _ _ _ _ _ E).
  eexists. split; reflexivity.
Qed.

Lemma update_twice_is_update_once_witness :
  exists w2,
    updateTodo Sample.env
      (Sample.request Sample.milkHex
         (DecodeOK (Sample.titled "buy oat milk" true)))
      {| collection :=
           [{| Model.ID := Sample.milkId; Model.Title := "buy oat milk";
               Model.Completed := true; Model.CreatedAt := Sample.clock |}];
         storeCalls := [CallUpdate Sample.milkId "buy oat milk" true];
         objectIdCounter := 7 |}
    = Returned w2 []
    /\ collection w2
       = [{| Model.ID := Sample.milkId; Model.Title := "buy oat milk";
             Model.Completed := true; Model.CreatedAt := Sample.clock |}].
Proof.
  apply (update_twice_is_update_once Sample.env
           (Sample.request Sample.milkHex
              (DecodeOK (Sample.titled "buy oat milk" true)))
           Sample.one).
  reflexivity.
Defined.

Lemma removeFirst_Permutation id (docs docs' : list Model.todoModel) :
  mgo.removeFirst id docs = Some docs' ->
  exists d, Model.ID d = id /\ Permutation docs (d :: docs').
Proof.
  revert docs'; induction docs as [|d0 docs IH]; intros docs' H;
    cbn [mgo.removeFirst] in H; [discriminate|].
  destruct (mgo.hasId id d0) eqn:E.
  - injection H as <-. exists d0. split; [|apply Permutation_refl].
    now apply String.eqb_eq in E.
  - destruct (mgo.removeFirst id docs) as [rest|]; [|discriminate].
    injection H as <-. destruct (IH rest eq_refl) as (d & Hd & HP).
    exists d. split; [exact Hd|].
    apply Permutation_trans with (d0 :: d :: rest);
      [now apply perm_skip | apply perm_swap].
Qed.

Lemma existsb_hasId_Forall id (docs : list Model.todoModel) :
  existsb (mgo.hasId id) docs = false ->
  Forall (fun d => Model.ID d <> id) docs.
Proof.
  induction docs as [|d docs IH]; cbn [existsb]; [constructor|].
  intros H. apply orb_false_iff in H as [Hd Hrest].
  constructor; [now apply String.eqb_neq in Hd | now apply IH].
Qed.

(** X14.  In a collection without a repeated identifier, a successful
    delete takes out one record, of the given id, and leaves the others,
    none of which has that id; the same request again is then answered
    400 "Failed to delete todo" with the not-found error. *)
Theorem delete_removes_the_id
    (env : Env) (r : Request) (w w1 : World) :
  NoDup (ids w) ->
  deleteTodo env r w = Returned w1 [deleted] ->
  exists oid d,
    bson.ObjectIdHex (strings.TrimSpace (URLParam_id r)) = Some oid
    /\ Model.ID d = oid
    /\ Permutation (collection w) (d :: collection w1)
    /\ Forall (fun d' => Model.ID d' <> oid) (collection w1)
    /\ deleteTodo env r w1
       = Returned (mgo.logCall (CallRemoveId oid) w1)
           [deleteFailed ErrNotFound].
Proof.
  intros ND H.
  destruct (deleteTodo_cases _ _ _ _ _ H)
    as [(_ & Hw) | (oid & Hid & Hoid & _ & [(err & Hw & _) | (_ & Hio & Hrm)])];
    try discriminate Hw.
  destruct (removeFirst_Permutation oid _ _ Hrm) as (d & Hd & HP).
  assert (existsb (mgo.hasId oid) (collection w1) = false) as Habs.
  { rewrite (removeFirst_filter oid _ _ ND Hrm). apply existsb_filter. }
  exists oid, d. split; [exact Hoid|]. split; [exact Hd|].
  split; [exact HP|]. split; [now apply existsb_hasId_Forall|].
  unfold deleteTodo, mgo.RemoveId. cbv zeta. rewrite Hid, Hoid, Hio.
  cbn [negb mgo.logCall collection].
  now rewrite (proj1 (removeFirst_absent oid (collection w1)) Habs).
Qed.

Lemma delete_removes_the_id_witness :
  exists oid d,
    bson.ObjectIdHex (strings.TrimSpace Sample.milkHex) = Some oid
    /\ Model.ID d = oid
    /\ Permutation (collection Sample.one) [d]
    /\ Forall (fun d' => Model.ID d' <> oid) (@nil Model.todoModel)
    /\ deleteTodo Sample.env
         (Sample.request Sample.milkHex (DecodeError (ErrDecode "EOF")))
         {| collection := [];
            storeCalls := [CallRemoveId Sample.milkId];
            objectIdCounter := 7 |}
       = Returned
           (mgo.logCall (CallRemoveId oid)
              {| collection := [];
                 storeCalls := [CallRemoveId Sample.milkId];
                 objectIdCounter := 7 |})
           [deleteFailed ErrNotFound].
Proof.
  apply (delete_removes_the_id Sample.env
           (Sample.request Sample.milkHex (DecodeError (ErrDecode "EOF")))
           Sample.one
           {| collection := [];
              storeCalls := [CallRemoveId Sample.milkId];
              objectIdCounter := 7 |}).
  - repeat constructor. intros [].
  - reflexivity.
Defined.

Section ObjectIds.

Lemma byte_low_bits (x y : Z) :
  byte x = byte y -> (x mod 256 = y mod 256)%Z.
Proof.
  unfold byte. intros H.
  assert (forall z, Z.land z 255 = z mod 256)%Z as L.
  { intros z. change 255%Z with (Z.ones 8). now rewrite Z.land_ones. }
  rewrite !L in H.
  pose proof (Z.mod_pos_bound x 256 ltac:(lia)) as Bx.
  pose proof (Z.mod_pos_bound y 256 ltac:(lia)) as By.
  assert (forall z, (0 <= z < 256)%Z -> (Z.to_N z < 256)%N) as B by lia.
  apply (f_equal N_of_ascii) in H.
  rewrite !N_ascii_embedding in H by (apply B; assumption).
  lia.
Qed.

(** The last three bytes of an id hold the low 24 bits of the counter. *)
Lemma NewObjectId_counter (src1 src2 : bson.IdSource) (c1 c2 : Z) :
  fst (bson.NewObjectId src1 c1) = fst (bson.NewObjectId src2 c2) ->
  (((c1 + 1) mod 2 ^ 32) mod 2 ^ 24
   = ((c2 + 1) mod 2 ^ 32) mod 2 ^ 24)%Z.
Proof.
  unfold bson.NewObjectId. cbv zeta.
  set (i := ((c1 + 1) mod 2 ^ 32)%Z). set (j := ((c2 + 1) mod 2 ^ 32)%Z).
  clearbody i j.
  destruct (bson.machineId src1) as [[a0 a1] a2].
  destruct (bson.machineId src2) as [[b0 b1] b2].
  unfold fst. intros H.
  injection H as _ _ _ _ _ _ _ _ _ H16 H8 H0.
  apply byte_low_bits in H16, H8, H0.
  rewrite !Z.shiftr_div_pow2 in H16, H8 by lia.
  change (2 ^ 16)%Z with 65536%Z in *. change (2 ^ 8)%Z with 256%Z in *.
  change (2 ^ 24)%Z with 16777216%Z.
  Z.div_mod_to_equations. lia.
Qed.

End ObjectIds.

(** X15.  Two identifiers that [bson.NewObjectId] makes one after the
    other are different, whatever the clock, the machine and the process
    show at either call: the counter they share separates them. *)
Theorem consecutive_ids_differ
    (src1 src2 : bson.IdSource) (counter : Z) :
  fst (bson.NewObjectId src1 counter)
  <> fst (bson.NewObjectId src2 (snd (bson.NewObjectId src1 counter))).
Proof.
  intros H. apply NewObjectId_counter in H.
  assert (snd (bson.NewObjectId src1 counter) = (counter + 1) mod 2 ^ 32)%Z
    as E.
  { unfold bson.NewObjectId. now destruct (bson.machineId src1) as [[? ?] ?]. }
  rewrite E in H. clear E.
  change (2 ^ 32)%Z with 4294967296%Z in H.
  change (2 ^ 24)%Z with 16777216%Z in H.
  Z.div_mod_to_equations. lia.
Qed.

(* ------------------------------------------------------------------ *)
(** * Further properties: [strings.TrimSpace] and the two time forms *)

Section Trimmed.

Lemma length_drop (n : nat) (s : string) :
  String.length (drop n s) = String.length s - n.
Proof.
  revert s; induction n as [|n IH]; intros s; cbn [drop].
  - now rewrite Nat.sub_0_r.
  - destruct s as [|c s]; [reflexivity|]. cbn [String.length]. apply IH.
Qed.

Lemma drop_drop (n k : nat) (s : string) : drop n (drop k s) = drop (k + n) s.
Proof.
  revert s; induction k as [|k IH]; intros s; [reflexivity|].
  destruct s as [|c s]; cbn [drop Nat.add].
  - destruct n; reflexivity.
  - apply IH.
Qed.

Lemma drop_split (k : nat) (s : string) : exists b, s = b ++ drop k s.
Proof.
  revert s; induction k as [|k IH]; intros s.
  - now exists "".
  - destruct s as [|c s]; [now exists ""|].
    destruct (IH s) as [b Hb]. exists (String c b).
    cbn [drop String.append]. now rewrite <- Hb.
Qed.

Lemma spaceWidth_nonempty (s : string) :
  strings.spaceWidth s <> 0 -> s <> "".
Proof. now destruct s. Qed.

Lemma spaceWidthLast_nonempty (s : string) :
  strings.spaceWidthLast s <> 0 -> s <> "".
Proof. now destruct s. Qed.

(** With fuel for every byte, the loop ends on a string that does not
    start with white space. *)
Lemma trimLeftSpace_done (fuel : nat) (s : string) :
  String.length s <= fuel ->
  strings.spaceWidth (strings.trimLeftSpace fuel s) = 0.
Proof.
  revert s; induction fuel as [|fuel IH]; intros s L.
  - destruct s; [reflexivity | cbn in L; lia].
  - cbn [strings.trimLeftSpace].
    destruct (strings.spaceWidth s) as [|k] eqn:E; [exact E|].
    apply IH. rewrite length_drop.
    assert (s <> "") as Hs by (apply spaceWidth_nonempty; lia).
    destruct s; [congruence | cbn [String.length] in *; lia].
Qed.

Lemma trimLastSpace_done (fuel : nat) (s : string) :
  String.length s <= fuel ->
  strings.spaceWidthLast (strings.trimLastSpace fuel s) = 0.
Proof.
  revert s; induction fuel as [|fuel IH]; intros s L.
  - destruct s; [reflexivity | cbn in L; lia].
  - cbn [strings.trimLastSpace].
    destruct (strings.spaceWidthLast s) as [|k] eqn:E; [exact E|].
    apply IH. rewrite length_drop.
    assert (s <> "") as Hs by (apply spaceWidthLast_nonempty; lia).
    destruct s; [congruence | cbn [String.length] in *; lia].
Qed.

Lemma trimLastSpace_drop (fuel : nat) (s : string) :
  exists k, strings.trimLastSpace fuel s = drop k s.
Proof.
  revert s; induction fuel as [|fuel IH]; intros s.
  - now exists 0.
  - cbn [strings.trimLastSpace].
    destruct (strings.spaceWidthLast s) as [|k]; [now exists 0|].
    destruct (IH (drop (S k) s)) as [k' ->]. exists (S k + k').
    apply drop_drop.
Qed.

(** A string that does not start with white space has no prefix that
    does. *)
Lemma spaceWidth_prefix (a b : string) :
  strings.spaceWidth (a ++ b) = 0 -> strings.spaceWidth a = 0.
Proof.
  destruct a as [|x [|y [|z a]]]; cbn [String.append strings.spaceWidth];
    try reflexivity.
  - destruct (strings.asciiSpace x); [|reflexivity].
    intros H; exact H.
  - destruct (strings.asciiSpace x); [intros H; exact H|].
    destruct b as [|z b]; [intros H; exact H|].
    destruct (strings.isSpace2 x y); [intros H; exact H | reflexivity].
  - intros H; exact H.
Qed.

Lemma TrimSpace_fixpoint (t : string) :
  strings.spaceWidth t = 0 -> strings.spaceWidthLast (reverse t) = 0 ->
  strings.TrimSpace t = t.
Proof.
  intros Hl Hr. unfold strings.TrimSpace. cbv zeta.
  rewrite (trimLeftSpace_stop _ t Hl), (trimLastSpace_stop _ _ Hr).
  apply reverse_involutive.
Qed.

Lemma TrimSpace_ends (s : string) :
  strings.spaceWidth (strings.TrimSpace s) = 0
  /\ strings.spaceWidthLast (reverse (strings.TrimSpace s)) = 0.
Proof.
  unfold strings.TrimSpace. cbv zeta.
  set (l := strings.trimLeftSpace (String.length s) s).
  assert (strings.spaceWidth l = 0) as Hl
    by (apply trimLeftSpace_done; lia).
  split.
  - destruct (trimLastSpace_drop (String.length l) (reverse l)) as [k ->].
    destruct (drop_split k (reverse l)) as [b Hb].
    apply (spaceWidth_prefix _ (reverse b)).
    rewrite <- reverse_app, <- Hb, reverse_involutive. exact Hl.
  - rewrite reverse_involutive. apply trimLastSpace_done.
    now rewrite length_reverse.
Qed.

End Trimmed.

(** X16.  What [deleteTodo] and [updateTodo] check is a string with no
    white space rune, ASCII or not, at its start or at its end, and
    trimming is idempotent: a trimmed id is trimmed to itself. *)
Theorem TrimSpace_leaves_no_space (s : string) :
  strings.spaceWidth (strings.TrimSpace s) = 0
  /\ strings.spaceWidthLast (reverse (strings.TrimSpace s)) = 0
  /\ strings.TrimSpace (strings.TrimSpace s) = strings.TrimSpace s.
Proof.
  destruct (TrimSpace_ends s) as [Hl Hr].
  split; [exact Hl|]. split; [exact Hr|].
  now apply TrimSpace_fixpoint.
Qed.

(** X17.  The two forms in which a creation time leaves the program
    agree to the second: the JSON form of the create answer is the date
    of the list form, a [T], the clock reading of the list form, and
    then fraction and zone. *)
Theorem time_forms_agree (t : time.Time) (js : string) :
  clockOK t ->
  time.MarshalJSON t = Some js ->
  exists date clock rest,
    String.length date = 10 /\ String.length clock = 8
    /\ time.Format t "2006-01-02 15:04:05" = date ++ " " ++ clock
    /\ js = date ++ "T" ++ clock ++ rest.
Proof.
  intros [Hv Hy] HM. unfold time.MarshalJSON in HM.
  destruct ((time.Year t <? 0)%Z || (10000 <=? time.Year t)%Z);
    [discriminate|].
  injection HM as <-.
  rewrite (Format_fixed t Hv Hy), (Format_RFC3339Nano t Hv Hy).
  exists (decimal 4 (time.Year t) ++ "-" ++ decimal 2 (time.Month t)
          ++ "-" ++ decimal 2 (time.Day t)),
         (decimal 2 (time.Hour t) ++ ":" ++ decimal 2 (time.Minute t)
          ++ ":" ++ decimal 2 (time.Second t)),
         (time.appendNano "" (time.Nanosecond t) 9
          ++ time.appendZone "" (time.ZoneOffset t)).
  split; [|split; [|split]].
  - rewrite !length_app, !length_decimal. reflexivity.
  - rewrite !length_app, !length_decimal. reflexivity.
  - unfold fixedFormat. rewrite !append_assoc. reflexivity.
  - rewrite !append_assoc. reflexivity.
Qed.

Lemma time_forms_agree_witness :
  exists date clock rest,
    String.length date = 10 /\ String.length clock = 8
    /\ time.Format Sample.clock "2006-01-02 15:04:05" = date ++ " " ++ clock
    /\ "2024-03-09T07:05:00.12+05:30" = date ++ "T" ++ clock ++ rest.
Proof.
  apply (time_forms_agree Sample.clock "2024-03-09T07:05:00.12+05:30").
  - split; [reflexivity | cbn; lia].
  - reflexivity.
Defined.
